(** * ws-pmce-stats: a shallow embedding of wspmcestats.cpp

    The program reads one WebSocket message per line of standard input, runs
    each through one zlib deflate context and prints totals.  This file
    embeds the richer of the two variants found in the source file (the one
    with [load_setting], [check_validity] and the [error] flag) and states
    the properties of its frame-overhead model, its settings parser, its
    per-line loop and its aggregate statistics. *)

From Stdlib Require Import ZArith List String Ascii Bool Lia Floats Permutation.
Import ListNotations.
Local Open Scope Z_scope.

(** ** Machine arithmetic

    [size_t] is an unsigned 64-bit integer, zlib's [uInt] an unsigned 32-bit
    one and [int] a signed 32-bit one; values are kept in [Z] and every
    operation of the source is followed by the wrap of its C++ type. *)

Definition to_size_t (z : Z) : Z := z mod 2 ^ 64.
Definition to_uInt (z : Z) : Z := z mod 2 ^ 32.
Definition to_int (z : Z) : Z := (z + 2 ^ 31) mod 2 ^ 32 - 2 ^ 31.
Definition to_long (z : Z) : Z := Z.max (- 2 ^ 63) (Z.min (2 ^ 63 - 1) z).

(** [1 << n] on [int].  C++ gives it a meaning for [0 <= n < 31] only; the
    model wraps like the other [int] operations. *)
Definition int_shl (a n : Z) : Z := to_int (Z.shiftl a n).
Definition int_add (a b : Z) : Z := to_int (a + b).
Definition int_mul (a b : Z) : Z := to_int (a * b).

(** [sizeof(int)] on the platforms the README builds for. *)
Definition sizeof_int : Z := 4.

(** ** Objects with automatic storage

    [line_result lr;] and [test_result r;] leave every member without a
    default initializer holding an indeterminate value.  A member that some
    path of the source reads before any assignment is a [mem]: [Indet]
    until assigned.  Arithmetic on an indeterminate value yields one. *)

Inductive mem (A : Type) : Type :=
| Indet : mem A
| Val : A -> mem A.
Arguments Indet {A}.
Arguments Val {A} _.

Definition mem_lift2 {A : Type} (f : A -> A -> A) (x y : mem A) : mem A :=
  match x, y with
  | Val a, Val b => Val (f a b)
  | _, _ => Indet
  end.

(** ** double *)

Definition double : Set := float.

(** [double(n)] for a [size_t] n: round to nearest, ties to even. *)
Definition double_of_size_t (n : Z) : double :=
  SF2Prim (binary_normalize 53 1024 n 0 false).

Definition size_add (a b : Z) : Z := to_size_t (a + b).
Definition size_sub (a b : Z) : Z := to_size_t (a - b).

(** ** pod_buffer

    Only the cursor and the capacity are modelled: the program never reads
    the bytes zlib writes into the buffer. *)

Module pod_buffer.

Record t : Set := mk { m_cursor : Z; m_capacity : Z }.

Definition init : t := mk 0 0.

Definition resize (b : t) (new_size : Z) : t :=
  if new_size <=? m_capacity b then b else mk (m_cursor b) new_size.

Definition capacity (b : t) : Z := m_capacity b.
Definition avail (b : t) : Z := size_sub (m_capacity b) (m_cursor b).
Definition cursor (b : t) : Z := m_cursor b.
Definition set_cursor (b : t) (c : Z) : t := mk c (m_capacity b).
Definition adv_cursor (b : t) (c : Z) : t :=
  mk (size_add (m_cursor b) c) (m_capacity b).

End pod_buffer.

(** ** frame_overhead *)

Definition frame_overhead (masked : bool) (payload_size : Z) : Z :=
  let size := if masked then 4 else 0 in
  if payload_size <=? 125 then size_add size 2
  else if payload_size <=? 65535 then size_add size 4
  else size_add size 8.

(** ** line_result and test_result *)

Module line_result.

(** [frame_overhead_compressed] and [elapsed_seconds] are the two members
    that the empty-line branch of [deflate_test] pushes without having
    assigned them; the other four are assigned before both [push_back]s. *)
Record t : Set := mk {
  payload_size : Z;
  frame_overhead : Z;
  frame_overhead_compressed : mem Z;
  compressed_size : Z;
  ratio : double;
  elapsed_seconds : mem double
}.

End line_result.

Module test_result.

Record t : Set := mk {
  error : bool;
  is_server : bool;
  sending : bool;
  context_takeover : bool;
  speed_level : Z;
  window_bits : Z;
  memory_level : Z;
  line_results : list line_result.t;
  total_payload : mem Z;
  total_frame_overhead : mem Z;
  total_frame_overhead_compressed : mem Z;
  total_compressed_size : mem Z;
  total_ratio : mem double;
  total_elapsed_seconds : mem double;
  mem_usage : mem Z;
  mem_usage_inflate_32 : mem Z;
  mem_usage_inflate_64 : mem Z
}.

(** [test_result r;]: the default member initializers, everything else
    indeterminate. *)
Definition fresh : t :=
  mk false true true true 6 15 8 [] Indet Indet Indet Indet Indet Indet
     Indet Indet Indet.

Definition set_error (b : bool) (r : t) : t :=
  mk b (is_server r) (sending r) (context_takeover r) (speed_level r)
     (window_bits r) (memory_level r) (line_results r) (total_payload r)
     (total_frame_overhead r) (total_frame_overhead_compressed r)
     (total_compressed_size r) (total_ratio r) (total_elapsed_seconds r)
     (mem_usage r) (mem_usage_inflate_32 r) (mem_usage_inflate_64 r).

Definition set_is_server (b : bool) (r : t) : t :=
  mk (error r) b (sending r) (context_takeover r) (speed_level r)
     (window_bits r) (memory_level r) (line_results r) (total_payload r)
     (total_frame_overhead r) (total_frame_overhead_compressed r)
     (total_compressed_size r) (total_ratio r) (total_elapsed_seconds r)
     (mem_usage r) (mem_usage_inflate_32 r) (mem_usage_inflate_64 r).

Definition set_sending (b : bool) (r : t) : t :=
  mk (error r) (is_server r) b (context_takeover r) (speed_level r)
     (window_bits r) (memory_level r) (line_results r) (total_payload r)
     (total_frame_overhead r) (total_frame_overhead_compressed r)
     (total_compressed_size r) (total_ratio r) (total_elapsed_seconds r)
     (mem_usage r) (mem_usage_inflate_32 r) (mem_usage_inflate_64 r).

Definition set_context_takeover (b : bool) (r : t) : t :=
  mk (error r) (is_server r) (sending r) b (speed_level r)
     (window_bits r) (memory_level r) (line_results r) (total_payload r)
     (total_frame_overhead r) (total_frame_overhead_compressed r)
     (total_compressed_size r) (total_ratio r) (total_elapsed_seconds r)
     (mem_usage r) (mem_usage_inflate_32 r) (mem_usage_inflate_64 r).

Definition set_speed_level (n : Z) (r : t) : t :=
  mk (error r) (is_server r) (sending r) (context_takeover r) n
     (window_bits r) (memory_level r) (line_results r) (total_payload r)
     (total_frame_overhead r) (total_frame_overhead_compressed r)
     (total_compressed_size r) (total_ratio r) (total_elapsed_seconds r)
     (mem_usage r) (mem_usage_inflate_32 r) (mem_usage_inflate_64 r).

Definition set_window_bits (n : Z) (r : t) : t :=
  mk (error r) (is_server r) (sending r) (context_takeover r)
     (speed_level r) n (memory_level r) (line_results r) (total_payload r)
     (total_frame_overhead r) (total_frame_overhead_compressed r)
     (total_compressed_size r) (total_ratio r) (total_elapsed_seconds r)
     (mem_usage r) (mem_usage_inflate_32 r) (mem_usage_inflate_64 r).

Definition set_memory_level (n : Z) (r : t) : t :=
  mk (error r) (is_server r) (sending r) (context_takeover r)
     (speed_level r) (window_bits r) n (line_results r) (total_payload r)
     (total_frame_overhead r) (total_frame_overhead_compressed r)
     (total_compressed_size r) (total_ratio r) (total_elapsed_seconds r)
     (mem_usage r) (mem_usage_inflate_32 r) (mem_usage_inflate_64 r).

(** [line_results.push_back(lr)] *)
Definition push_back (lr : line_result.t) (r : t) : t :=
  mk (error r) (is_server r) (sending r) (context_takeover r)
     (speed_level r) (window_bits r) (memory_level r)
     (line_results r ++ [lr]) (total_payload r)
     (total_frame_overhead r) (total_frame_overhead_compressed r)
     (total_compressed_size r) (total_ratio r) (total_elapsed_seconds r)
     (mem_usage r) (mem_usage_inflate_32 r) (mem_usage_inflate_64 r).

(** *** Text helpers used by [load_setting] *)

(** [arg.find(c)]; [None] is [std::string::npos]. *)
Fixpoint find (c : ascii) (s : string) : option nat :=
  match s with
  | EmptyString => None
  | String a s' =>
      if Ascii.eqb a c then Some 0%nat
      else match find c s' with
           | Some n => Some (S n)
           | None => None
           end
  end.

Definition isspace (c : ascii) : bool :=
  let n := Z.of_nat (nat_of_ascii c) in
  (n =? 32) || ((9 <=? n) && (n <=? 13)).

Definition digit_of (c : ascii) : option Z :=
  let n := Z.of_nat (nat_of_ascii c) in
  if (48 <=? n) && (n <=? 57) then Some (n - 48) else None.

Fixpoint skip_space (s : string) : string :=
  match s with
  | String c s' => if isspace c then skip_space s' else s
  | EmptyString => s
  end.

Fixpoint digits (acc : Z) (s : string) : Z :=
  match s with
  | String c s' =>
      match digit_of c with
      | Some d => digits (10 * acc + d) s'
      | None => acc
      end
  | EmptyString => acc
  end.

(** [strtol(s, NULL, 10)]: leading white space, an optional sign, then the
    longest run of decimal digits; no digits gives 0; the value saturates
    at the bounds of [long]. *)
Definition strtol10 (s : string) : Z :=
  match skip_space s with
  | String "-"%char s' => to_long (- digits 0 s')
  | String "+"%char s' => to_long (digits 0 s')
  | s' => to_long (digits 0 s')
  end.

(** [atoi(s)] is [(int) strtol(s, NULL, 10)].  ISO C leaves a value
    outside [int] undefined; the conversion wraps here. *)
Definition atoi (s : string) : Z := to_int (strtol10 s).

(** *** load_setting *)

Definition load_setting (arg : string) (r : t) : t :=
  match find "="%char arg with
  | Some pos =>
      let key := substring 0 pos arg in
      let val := substring (S pos) (String.length arg - S pos) arg in
      if String.eqb key "server" then
        set_is_server (if String.eqb val "true" then true else false) r
      else if String.eqb key "sending" then
        set_sending (if String.eqb val "true" then true else false) r
      else if String.eqb key "context_takeover" then
        set_context_takeover (if String.eqb val "true" then true else false) r
      else if String.eqb key "speed_levels" then
        set_speed_level (atoi val) r
      else if String.eqb key "window_bits" then
        set_window_bits (atoi val) r
      else if String.eqb key "memory_level" then
        set_memory_level (atoi val) r
      else r
  | None => r
  end.

(** *** check_validity

    The three range tests run one after the other; each failing one prints
    its message and raises [error].  The result is [!error]. *)

Definition msg_speed_level : string :=
  "Speed level must be between 0 (fastest, no compression) and 9 (slowest, best compression). Default is 6".
Definition msg_window_bits : string :=
  "Window bits must be between 8 (lower memory usage, worse compression) and 15 (highest memory usage, best compression). Default is 15.".
Definition msg_memory_level : string :=
  "Memory level must be between 1 (lower memory usage, worse compression) and 9 (highest memory usage, best compression). Default is 8.".

Definition check_validity (r : t) : bool * t * list string :=
  let '(r1, o1) :=
    if (speed_level r >? 9) || (speed_level r <? 0)
    then (set_error true r, [msg_speed_level]) else (r, []) in
  let '(r2, o2) :=
    if (window_bits r1 >? 15) || (window_bits r1 <? 8)
    then (set_error true r1, o1 ++ [msg_window_bits]) else (r1, o1) in
  let '(r3, o3) :=
    if (memory_level r2 >? 9) || (memory_level r2 <? 1)
    then (set_error true r2, o2 ++ [msg_memory_level]) else (r2, o2) in
  (negb (error r3), r3, o3).

(** *** calc_stats *)

Definition set_totals (p fo foc cs : mem Z) (ra el : mem double) (r : t) : t :=
  mk (error r) (is_server r) (sending r) (context_takeover r)
     (speed_level r) (window_bits r) (memory_level r) (line_results r)
     p fo foc cs ra el
     (mem_usage r) (mem_usage_inflate_32 r) (mem_usage_inflate_64 r).

Definition set_mem_stats (m m32 m64 : mem Z) (r : t) : t :=
  mk (error r) (is_server r) (sending r) (context_takeover r)
     (speed_level r) (window_bits r) (memory_level r) (line_results r)
     (total_payload r) (total_frame_overhead r)
     (total_frame_overhead_compressed r) (total_compressed_size r)
     (total_ratio r) (total_elapsed_seconds r)
     m m32 m64.

(** The body of [for (auto & lr : line_results)]. *)
Definition accumulate (r : t) (lr : line_result.t) : t :=
  set_totals
    (mem_lift2 size_add (total_payload r) (Val (line_result.payload_size lr)))
    (mem_lift2 size_add (total_frame_overhead r)
               (Val (line_result.frame_overhead lr)))
    (mem_lift2 size_add (total_frame_overhead_compressed r)
               (line_result.frame_overhead_compressed lr))
    (mem_lift2 size_add (total_compressed_size r)
               (Val (line_result.compressed_size lr)))
    (total_ratio r)
    (mem_lift2 PrimFloat.add (total_elapsed_seconds r)
               (line_result.elapsed_seconds lr))
    r.

Definition mem_double_of_size_t (n : mem Z) : mem double :=
  match n with
  | Val z => Val (double_of_size_t z)
  | Indet => Indet
  end.

Definition calc_stats (r : t) : t :=
  (* the five assignments of 0; total_elapsed_seconds is not among them *)
  let r0 :=
    set_totals (Val 0) (Val 0) (Val 0) (Val 0) (Val 0%float)
               (total_elapsed_seconds r) r in
  let r1 := fold_left accumulate (line_results r0) r0 in
  let r2 :=
    set_totals (total_payload r1) (total_frame_overhead r1)
               (total_frame_overhead_compressed r1) (total_compressed_size r1)
               (mem_lift2 PrimFloat.div
                          (mem_double_of_size_t (total_compressed_size r1))
                          (mem_double_of_size_t (total_payload r1)))
               (total_elapsed_seconds r1) r1 in
  if sending r2 then
    set_mem_stats
      (Val (to_size_t (int_add (int_shl 1 (int_add (window_bits r2) 2))
                               (int_shl 1 (int_add (memory_level r2) 9)))))
      (Val (to_size_t (int_add (int_shl 1 (window_bits r2))
                               (int_mul (int_mul 1440 2) 4))))
      (Val (to_size_t (int_add (int_shl 1 (window_bits r2))
                               (int_mul (int_mul 1440 2) 8))))
      r2
  else
    set_mem_stats
      (Val (size_add (to_size_t (int_shl 1 (window_bits r2)))
                     (to_size_t (to_size_t (int_mul 1440 2) * sizeof_int))))
      (Val 0) (Val 0)
      r2.

(** *** print_stats

    What reaches standard output is modelled by what it is computed from:
    [print_stats] writes the settings and, after [calc_stats], the totals
    of the record it prints. *)
Inductive printed : Set :=
| Text (s : string)
| Help
| Stats (r : t).

Definition print_stats (r : t) : t * list printed :=
  let r' := calc_stats r in (r', [Stats r']).

End test_result.

(** ** Standard input

    [std::getline(input, line)] extracts characters up to the next newline,
    which it drops, or up to the end of the input; it fails when the input
    is already at its end.  The stream is the text that is still unread. *)

Definition newline : ascii := "010"%char.

Fixpoint take_line (s : string) : string * string :=
  match s with
  | EmptyString => (EmptyString, EmptyString)
  | String c s' =>
      if Ascii.eqb c newline then (EmptyString, s')
      else let '(l, rest) := take_line s' in (String c l, rest)
  end.

Definition getline (input : string) : option (string * string) :=
  match input with
  | EmptyString => None
  | _ => Some (take_line input)
  end.

(** The lines that [while (std::getline(input, line))] goes through, by
    one pass over the text; [line] is the part of the current line already
    read. *)
Fixpoint getlines_from (line input : string) : list string :=
  match input with
  | EmptyString =>
      match line with
      | EmptyString => []
      | _ => [line]
      end
  | String c rest =>
      if Ascii.eqb c newline then line :: getlines_from EmptyString rest
      else getlines_from (line ++ String c EmptyString) rest
  end.

Definition getlines (input : string) : list string :=
  getlines_from EmptyString input.

(** [line.size()] *)
Definition size (line : string) : Z := Z.of_nat (String.length line).

(** ** zlib

    zlib is not part of the repository: the program is embedded over an
    interface holding what it calls.  [z_state] is what the [z_stream]
    carries from one call to the next.  A [deflate] call is given the flush
    mode, [next_in], [avail_in] and [avail_out] and leaves the new
    [avail_out]; [dr_seconds] is the duration that the two readings of
    [high_resolution_clock] around the call measure.  The interface
    describes the calls that return, and one execution: in another
    execution the same call may take another time. *)

Inductive flush : Set :=
| Z_NO_FLUSH
| Z_PARTIAL_FLUSH
| Z_SYNC_FLUSH
| Z_FULL_FLUSH
| Z_FINISH.

Definition Z_OK : Z := 0.
Definition Z_STREAM_ERROR : Z := -2.
Definition Z_DEFLATED : Z := 8.
Definition Z_DEFAULT_STRATEGY : Z := 0.

Record deflate_result (S : Type) : Type := mk_deflate_result {
  dr_state : S;
  dr_avail_out : Z;
  dr_seconds : double
}.
Arguments mk_deflate_result {S} _ _ _.
Arguments dr_state {S} _.
Arguments dr_avail_out {S} _.
Arguments dr_seconds {S} _.

Class Zlib : Type := {
  z_state : Type;
  (** level, method, windowBits, memLevel, strategy; the return code and
      the stream state *)
  deflateInit2 : Z -> Z -> Z -> Z -> Z -> Z * z_state;
  deflateBound : z_state -> Z -> Z;
  deflate : z_state -> flush -> string -> Z -> Z -> deflate_result z_state
}.

(** The calls a run makes into zlib, in order. *)
Inductive zcall : Set :=
| Call_deflateInit2 (level windowBits memLevel ret : Z)
| Call_deflateBound (sourceLen : Z)
| Call_deflate (f : flush) (next_in : string) (avail_in avail_out : Z)
| Call_deflateEnd.

(** Whether a deflate context is allocated after a sequence of calls:
    [deflateInit2] allocates one when it returns [Z_OK], [deflateEnd] frees
    it. *)
Fixpoint context_allocated (live : bool) (calls : list zcall) : bool :=
  match calls with
  | [] => live
  | Call_deflateInit2 _ _ _ ret :: calls' =>
      context_allocated (live || (ret =? Z_OK)) calls'
  | Call_deflateEnd :: calls' => context_allocated false calls'
  | _ :: calls' => context_allocated live calls'
  end.

Definition is_deflateEnd (c : zcall) : bool :=
  match c with
  | Call_deflateEnd => true
  | _ => false
  end.

Definition is_deflate (c : zcall) : bool :=
  match c with
  | Call_deflate _ _ _ _ | Call_deflateBound _ => true
  | _ => false
  end.

(** ** deflate_test *)

Definition msg_setup : string := "Fatal Error setting up deflate context".
Definition msg_memory : string := "Fatal Error, needed more memory than expected.".
Definition msg_exit : string := "Exited due to a fatal test error".

Section Run.

Context {zlib : Zlib}.

(** The locals of [deflate_test] that live across loop iterations. *)
Record session : Type := mk_session {
  zlib_state : z_state;
  out_buf : pod_buffer.t;
  r_of : test_result.t;
  calls_of : list zcall
}.

Inductive step : Type :=
| Continue (s : session)
| Fatal (s : session).

(** One iteration of the [while] loop. *)
Definition process_line (fl : flush) (s : session) (line : string) : step :=
  let r := r_of s in
  let lr_payload_size := size line in
  let lr_frame_overhead :=
    frame_overhead (negb (test_result.is_server r)) (size line) in
  match line with
  | EmptyString =>
      Continue
        (mk_session (zlib_state s) (out_buf s)
           (test_result.push_back
              (line_result.mk lr_payload_size lr_frame_overhead Indet 2
                              2%float Indet) r)
           (calls_of s))
  | _ =>
      let avail_in := to_uInt (size line) in
      let est_size := to_size_t (deflateBound (zlib_state s) (size line)) in
      let b1 := pod_buffer.set_cursor (pod_buffer.resize (out_buf s) est_size) 0 in
      let avail_out := to_uInt (pod_buffer.avail b1) in
      let d := deflate (zlib_state s) fl line avail_in avail_out in
      let avail_out' := to_uInt (dr_avail_out d) in
      let calls :=
        calls_of s ++ [Call_deflateBound (size line);
                       Call_deflate fl line avail_in avail_out] in
      let b2 :=
        pod_buffer.adv_cursor b1 (size_sub (pod_buffer.avail b1) avail_out') in
      if pod_buffer.avail b2 =? 0 then
        Fatal (mk_session (dr_state d) b2 (test_result.set_error true r) calls)
      else
        let lr_compressed_size := size_sub (pod_buffer.cursor b2) 4 in
        let lr_frame_overhead_compressed :=
          frame_overhead (negb (test_result.is_server r)) lr_compressed_size in
        let lr_ratio :=
          PrimFloat.div (double_of_size_t lr_compressed_size)
                        (double_of_size_t lr_payload_size) in
        Continue
          (mk_session (dr_state d) b2
             (test_result.push_back
                (line_result.mk lr_payload_size lr_frame_overhead
                                (Val lr_frame_overhead_compressed)
                                lr_compressed_size lr_ratio
                                (Val (dr_seconds d))) r)
             calls)
  end.

(** The [deflate] call of an iteration, as [process_line] issues it: the
    output space it offers and what the call leaves of it. *)
Definition offered (s : session) (line : string) : Z :=
  to_uInt
    (pod_buffer.avail
       (pod_buffer.set_cursor
          (pod_buffer.resize (out_buf s)
             (to_size_t (deflateBound (zlib_state s) (size line)))) 0)).

Definition left_after (fl : flush) (s : session) (line : string) : Z :=
  to_uInt
    (dr_avail_out
       (deflate (zlib_state s) fl line (to_uInt (size line)) (offered s line))).

(** The compression step on [line] leaves no byte of the output buffer. *)
Definition exhausted (fl : flush) (s : session) (line : string) : Prop :=
  line <> EmptyString /\ left_after fl s line = 0.

Definition final (st : step) : session :=
  match st with
  | Continue s | Fatal s => s
  end.

(** The [while] loop over the lines still to be read. *)
Fixpoint deflate_loop (fl : flush) (lines : list string) (s : session) : step :=
  match lines with
  | [] => Continue s
  | line :: rest =>
      match process_line fl s line with
      | Continue s' => deflate_loop fl rest s'
      | Fatal s' => Fatal s'
      end
  end.

(** What a call of [deflate_test] leaves: the returned [test_result], the
    calls made into zlib and the text written to standard output. *)
Record run : Type := mk_run {
  result : test_result.t;
  calls : list zcall;
  output : list test_result.printed
}.

Definition deflate_lines (lines : list string) (r : test_result.t) : run :=
  let '(valid, r, msgs) := test_result.check_validity r in
  let out := map test_result.Text msgs in
  if negb valid then mk_run r [] out
  else
    let '(ret, zs) :=
      deflateInit2 (test_result.speed_level r) Z_DEFLATED
                   (int_mul (-1) (test_result.window_bits r))
                   (test_result.memory_level r) Z_DEFAULT_STRATEGY in
    let init_call :=
      Call_deflateInit2 (test_result.speed_level r)
                        (int_mul (-1) (test_result.window_bits r))
                        (test_result.memory_level r) ret in
    if negb (ret =? Z_OK) then
      mk_run (test_result.set_error true r) [init_call]
             (out ++ [test_result.Text msg_setup])
    else
      let fl := if test_result.context_takeover r
                then Z_SYNC_FLUSH else Z_FULL_FLUSH in
      match deflate_loop fl lines
                         (mk_session zs pod_buffer.init r [init_call]) with
      | Continue s => mk_run (r_of s) (calls_of s) out
      | Fatal s =>
          mk_run (r_of s) (calls_of s) (out ++ [test_result.Text msg_memory])
      end.

Definition deflate_test (input : string) (r : test_result.t) : run :=
  deflate_lines (getlines input) r.

(** The records a run has added to the ones [r] came with. *)
Definition appended (r : test_result.t) (t : run) : list line_result.t :=
  skipn (List.length (test_result.line_results r))
        (test_result.line_results (result t)).

(** The session the loop of [deflate_lines] starts from. *)
Definition first_session (r : test_result.t) (zs : z_state) (ret : Z)
  : session :=
  mk_session zs pod_buffer.init r
    [Call_deflateInit2 (test_result.speed_level r)
                       (int_mul (-1) (test_result.window_bits r))
                       (test_result.memory_level r) ret].

(** The call [deflate_lines] opens the context with. *)
Definition init_call (r : test_result.t) : Z * z_state :=
  deflateInit2 (test_result.speed_level r) Z_DEFLATED
               (int_mul (-1) (test_result.window_bits r))
               (test_result.memory_level r) Z_DEFAULT_STRATEGY.

(** The three range tests of [check_validity]. *)
Definition in_ranges (r : test_result.t) : Prop :=
  0 <= test_result.speed_level r <= 9
  /\ 8 <= test_result.window_bits r <= 15
  /\ 1 <= test_result.memory_level r <= 9.

(** A record whose frame overheads are computed with [masked]; the
    compressed one is looked at for a non-empty message only. *)
Definition overheads_with (masked : bool) (lr : line_result.t) : Prop :=
  line_result.frame_overhead lr
  = frame_overhead masked (line_result.payload_size lr)
  /\ (line_result.payload_size lr <> 0 ->
      line_result.frame_overhead_compressed lr
      = Val (frame_overhead masked (line_result.compressed_size lr))).

(** ** What is assumed of zlib about [Z_FULL_FLUSH]

    The repository does not contain zlib.  The property that needs more of
    [deflate] than its signature is stated under the three conditions
    below, on the state [s0] that [deflateInit2] returns. *)

(** A [Z_FULL_FLUSH] call that got all its output out leaves the compressor
    as [deflateInit2] made it: no history is kept. *)
Definition full_flush_resets (s0 : z_state) : Prop :=
  forall line avail_in avail_out,
    to_uInt (dr_avail_out (deflate s0 Z_FULL_FLUSH line avail_in avail_out)) <> 0 ->
    dr_state (deflate s0 Z_FULL_FLUSH line avail_in avail_out) = s0.

(** The number of bytes a call writes does not depend on how much room it
    was given, as long as the room was not used up. *)
Definition output_independent_of_room (s0 : z_state) : Prop :=
  forall line avail_in a1 a2,
    0 <= a1 < 2 ^ 32 -> 0 <= a2 < 2 ^ 32 ->
    let l1 := to_uInt (dr_avail_out (deflate s0 Z_FULL_FLUSH line avail_in a1)) in
    let l2 := to_uInt (dr_avail_out (deflate s0 Z_FULL_FLUSH line avail_in a2)) in
    l1 <> 0 -> l2 <> 0 -> a1 - l1 = a2 - l2.

(** The bound of the line fits zlib's 32-bit [avail_out]. *)
Definition bound_fits (s0 : z_state) (line : string) : Prop :=
  0 <= deflateBound s0 (size line) < 2 ^ 32.

(** Between two iterations of a run without context takeover: the
    compressor is as [deflateInit2] made it and the buffer is smaller than
    4 GiB. *)
Definition fresh_between (s0 : z_state) (s : session) : Prop :=
  zlib_state s = s0 /\ 0 <= pod_buffer.m_capacity (out_buf s) < 2 ^ 32.

(** [cs] is a compressed size that the loop can record for [line] when it
    calls [deflate] in state [s0] with [Z_FULL_FLUSH] and some room [a]. *)
Definition sized (s0 : z_state) (line : string) (cs : Z) : Prop :=
  match line with
  | EmptyString => cs = 2
  | _ =>
      exists a,
        0 <= a < 2 ^ 32
        /\ to_uInt (dr_avail_out
                      (deflate s0 Z_FULL_FLUSH line (to_uInt (size line)) a)) <> 0
        /\ cs = size_sub
                  (size_add 0
                     (size_sub a
                        (to_uInt
                           (dr_avail_out
                              (deflate s0 Z_FULL_FLUSH line
                                       (to_uInt (size line)) a))))) 4
  end.

(** ** main *)

(** The [for] loop over [argv[1..]]: [None] when [--help] or [-h] ends the
    program, the settings otherwise. *)
Fixpoint load_args (args : list string) (r : test_result.t)
  : option test_result.t :=
  match args with
  | [] => Some r
  | arg :: args' =>
      if String.eqb arg "--help" || String.eqb arg "-h" then None
      else load_args args' (test_result.load_setting arg r)
  end.

Definition main_settings : test_result.t :=
  test_result.set_memory_level 8
    (test_result.set_window_bits 15
       (test_result.set_speed_level 6
          (test_result.set_context_takeover true
             (test_result.set_sending true
                (test_result.set_is_server true test_result.fresh))))).

(** The exit status and the text written to standard output. *)
Definition main (argv : list string) (input : string)
  : Z * list test_result.printed :=
  match load_args (tl argv) main_settings with
  | None => (0, [test_result.Help])
  | Some r =>
      let t := deflate_test input r in
      if test_result.error (result t) then
        (1, output t ++ [test_result.Text msg_exit])
      else
        let '(_, stats) := test_result.print_stats (result t) in
        (0, output t ++ stats)
  end.

End Run.

(** ** A small instance of the zlib interface

    Used to run the program on concrete inputs.  It keeps the messages seen
    since the last reset: a message already in that history costs 7 bytes,
    any other one its length plus 10 (a stored block and the flush
    trailer).  [Z_FULL_FLUSH] empties the history, the other flush modes
    add the message to it.  [deflateBound] answers the source length plus
    [slack], so a [slack] below 11 makes the bound too small. *)

Definition toy_init (level method windowBits memLevel strategy : Z)
  : Z * list string :=
  (if (method =? Z_DEFLATED) && (0 <=? level) && (level <=? 9)
      && (8 <=? - windowBits) && (- windowBits <=? 15)
      && (1 <=? memLevel) && (memLevel <=? 9)
   then Z_OK else Z_STREAM_ERROR, []).

Definition toy_need (history : list string) (data : string) : Z :=
  if existsb (String.eqb data) history then 7 else size data + 10.

Definition toy_seconds : double := 0.5%float.

Definition toy_deflate (history : list string) (fl : flush) (data : string)
  (avail_in avail_out : Z) : deflate_result (list string) :=
  let produced := Z.min (toy_need history data) avail_out in
  mk_deflate_result
    (match fl with
     | Z_FULL_FLUSH => []
     | _ => data :: history
     end)
    (avail_out - produced)
    toy_seconds.

Definition toy_zlib (slack : Z) : Zlib :=
  {| z_state := list string;
     deflateInit2 := toy_init;
     deflateBound := fun _ sourceLen => sourceLen + slack;
     deflate := toy_deflate |}.

(** ** Inputs used in the examples *)

Definition client_receiving : test_result.t :=
  test_result.set_sending false
    (test_result.set_is_server false test_result.fresh).

Definition no_takeover : test_result.t :=
  test_result.set_context_takeover false test_result.fresh.

(** Two records with the sizes of the spec's ratio example and exactly
    representable timings. *)
Definition two_records : list line_result.t :=
  [ line_result.mk 10 2 (Val 2) 8
      (PrimFloat.div (double_of_size_t 8) (double_of_size_t 10))
      (Val 0.25%float);
    line_result.mk 1000 4 (Val 4) 200
      (PrimFloat.div (double_of_size_t 200) (double_of_size_t 1000))
      (Val 0.5%float) ].

(** Standard input holding the lines [hello], an empty line, [hello]. *)
Definition input_three : string :=
  "hello" ++ String newline (String newline "hello").

(** Standard input holding an empty line, then [hello], then [later]. *)
Definition input_exhaust : string :=
  String newline ("hello" ++ String newline "later").

Definition with_levels (speed_level window_bits memory_level : Z)
  : test_result.t :=
  test_result.set_memory_level memory_level
    (test_result.set_window_bits window_bits
       (test_result.set_speed_level speed_level test_result.fresh)).

Definition with_records (l : list line_result.t) (el : mem double)
  : test_result.t :=
  test_result.mk false true true true 6 15 8 l
                 Indet Indet Indet Indet Indet el Indet Indet Indet.

(** ** Further definitions used in the statements *)

Definition Z_MEM_ERROR : Z := -4.

(** An instance whose [deflateInit2] always fails for lack of memory. *)
Definition failing_zlib : Zlib :=
  {| z_state := list string;
     deflateInit2 := fun _ _ _ _ _ => (Z_MEM_ERROR, []);
     deflateBound := fun _ sourceLen => sourceLen + 13;
     deflate := toy_deflate |}.

Definition speed_level_ok (r : test_result.t) : bool :=
  (0 <=? test_result.speed_level r) && (test_result.speed_level r <=? 9).
Definition window_bits_ok (r : test_result.t) : bool :=
  (8 <=? test_result.window_bits r) && (test_result.window_bits r <=? 15).
Definition memory_level_ok (r : test_result.t) : bool :=
  (1 <=? test_result.memory_level r) && (test_result.memory_level r <=? 9).

(** One message per setting outside its range, in the order speed level,
    window bits, memory level. *)
Definition range_messages (r : test_result.t) : list string :=
  (if speed_level_ok r then [] else [test_result.msg_speed_level])
  ++ (if window_bits_ok r then [] else [test_result.msg_window_bits])
  ++ (if memory_level_ok r then [] else [test_result.msg_memory_level]).

(** The token [key=val]. *)
Definition token (key val : string) : string :=
  (key ++ String "="%char val)%string.

(** The six settings of a [test_result]. *)
Definition settings_of (r : test_result.t) : bool * bool * bool * Z * Z * Z :=
  (test_result.is_server r, test_result.sending r,
   test_result.context_takeover r, test_result.speed_level r,
   test_result.window_bits r, test_result.memory_level r).

(** The aggregate and memory members of a [test_result]. *)
Definition stats_of (r : test_result.t)
  : mem Z * mem Z * mem Z * mem Z * mem double * mem double
    * mem Z * mem Z * mem Z :=
  (test_result.total_payload r, test_result.total_frame_overhead r,
   test_result.total_frame_overhead_compressed r,
   test_result.total_compressed_size r, test_result.total_ratio r,
   test_result.total_elapsed_seconds r, test_result.mem_usage r,
   test_result.mem_usage_inflate_32 r, test_result.mem_usage_inflate_64 r).

Definition nonempty (line : string) : bool :=
  match line with
  | EmptyString => false
  | _ => true
  end.

(** The flush mode, input and [avail_in] of the [deflate] calls among
    [calls], and the source lengths of the [deflateBound] calls. *)
Definition deflate_inputs (calls : list zcall) : list (flush * string * Z) :=
  flat_map (fun c => match c with
                     | Call_deflate f next_in avail_in _ =>
                         [(f, next_in, avail_in)]
                     | _ => []
                     end) calls.

Definition bound_inputs (calls : list zcall) : list Z :=
  flat_map (fun c => match c with
                     | Call_deflateBound n => [n]
                     | _ => []
                     end) calls.

(** The flush mode that [deflate_test] selects. *)
Definition flush_of (r : test_result.t) : flush :=
  if test_result.context_takeover r then Z_SYNC_FLUSH else Z_FULL_FLUSH.

(** The record of an empty line. *)
Definition empty_record (r : test_result.t) : line_result.t :=
  line_result.mk 0 (frame_overhead (negb (test_result.is_server r)) 0)
                 Indet 2 2%float Indet.

(** [r] with [total_elapsed_seconds] replaced. *)
Definition set_total_elapsed_seconds (e : mem double) (r : test_result.t)
  : test_result.t :=
  test_result.set_totals
    (test_result.total_payload r) (test_result.total_frame_overhead r)
    (test_result.total_frame_overhead_compressed r)
    (test_result.total_compressed_size r) (test_result.total_ratio r) e r.

(** The sum of a list of integers. *)
Definition sum (l : list Z) : Z := fold_right Z.add 0 l.

(** The text holding the given lines, each one followed by a newline. *)
Fixpoint text_of_lines (lines : list string) : string :=
  match lines with
  | [] => EmptyString
  | line :: rest => (line ++ String newline (text_of_lines rest))%string
  end.

(** A string without any newline character. *)
Fixpoint newline_free (s : string) : Prop :=
  match s with
  | EmptyString => True
  | String c s' => c <> newline /\ newline_free s'
  end.

(** ** The earlier variant of the program

    The source file also holds an earlier variant of the whole program: its
    [line_result] has no [frame_overhead_compressed], its [test_result] no
    [error] flag and no default member initializers, its [deflate_test]
    checks nothing (the two [// handle error] places are empty), and its
    [main] parses the arguments in line, tests the three ranges itself and
    returns 1 at the first one that fails. *)

Module prototype.

Module line_result.

Record t : Set := mk {
  payload_size : Z;
  frame_overhead : Z;
  compressed_size : Z;
  ratio : double;
  elapsed_seconds : mem double
}.

End line_result.

Module test_result.

Record t : Set := mk {
  is_server : bool;
  sending : bool;
  context_takeover : bool;
  speed_level : Z;
  window_bits : Z;
  memory_level : Z;
  line_results : list line_result.t;
  total_payload : mem Z;
  total_frame_overhead : mem Z;
  total_compressed_size : mem Z;
  total_ratio : mem double;
  total_elapsed_seconds : mem double;
  mem_usage : mem Z;
  mem_usage_inflate_32 : mem Z;
  mem_usage_inflate_64 : mem Z
}.

Definition set_is_server (b : bool) (r : t) : t :=
  mk b (sending r) (context_takeover r) (speed_level r) (window_bits r)
     (memory_level r) (line_results r) (total_payload r)
     (total_frame_overhead r) (total_compressed_size r) (total_ratio r)
     (total_elapsed_seconds r) (mem_usage r) (mem_usage_inflate_32 r)
     (mem_usage_inflate_64 r).

Definition set_sending (b : bool) (r : t) : t :=
  mk (is_server r) b (context_takeover r) (speed_level r) (window_bits r)
     (memory_level r) (line_results r) (total_payload r)
     (total_frame_overhead r) (total_compressed_size r) (total_ratio r)
     (total_elapsed_seconds r) (mem_usage r) (mem_usage_inflate_32 r)
     (mem_usage_inflate_64 r).

Definition set_context_takeover (b : bool) (r : t) : t :=
  mk (is_server r) (sending r) b (speed_level r) (window_bits r)
     (memory_level r) (line_results r) (total_payload r)
     (total_frame_overhead r) (total_compressed_size r) (total_ratio r)
     (total_elapsed_seconds r) (mem_usage r) (mem_usage_inflate_32 r)
     (mem_usage_inflate_64 r).

Definition set_speed_level (n : Z) (r : t) : t :=
  mk (is_server r) (sending r) (context_takeover r) n (window_bits r)
     (memory_level r) (line_results r) (total_payload r)
     (total_frame_overhead r) (total_compressed_size r) (total_ratio r)
     (total_elapsed_seconds r) (mem_usage r) (mem_usage_inflate_32 r)
     (mem_usage_inflate_64 r).

Definition set_window_bits (n : Z) (r : t) : t :=
  mk (is_server r) (sending r) (context_takeover r) (speed_level r) n
     (memory_level r) (line_results r) (total_payload r)
     (total_frame_overhead r) (total_compressed_size r) (total_ratio r)
     (total_elapsed_seconds r) (mem_usage r) (mem_usage_inflate_32 r)
     (mem_usage_inflate_64 r).

Definition set_memory_level (n : Z) (r : t) : t :=
  mk (is_server r) (sending r) (context_takeover r) (speed_level r)
     (window_bits r) n (line_results r) (total_payload r)
     (total_frame_overhead r) (total_compressed_size r) (total_ratio r)
     (total_elapsed_seconds r) (mem_usage r) (mem_usage_inflate_32 r)
     (mem_usage_inflate_64 r).

Definition push_back (lr : line_result.t) (r : t) : t :=
  mk (is_server r) (sending r) (context_takeover r) (speed_level r)
     (window_bits r) (memory_level r) (line_results r ++ [lr])
     (total_payload r) (total_frame_overhead r) (total_compressed_size r)
     (total_ratio r) (total_elapsed_seconds r) (mem_usage r)
     (mem_usage_inflate_32 r) (mem_usage_inflate_64 r).

Definition set_totals (p fo cs : mem Z) (ra el : mem double) (r : t) : t :=
  mk (is_server r) (sending r) (context_takeover r) (speed_level r)
     (window_bits r) (memory_level r) (line_results r) p fo cs ra el
     (mem_usage r) (mem_usage_inflate_32 r) (mem_usage_inflate_64 r).

Definition set_mem_stats (m m32 m64 : mem Z) (r : t) : t :=
  mk (is_server r) (sending r) (context_takeover r) (speed_level r)
     (window_bits r) (memory_level r) (line_results r) (total_payload r)
     (total_frame_overhead r) (total_compressed_size r) (total_ratio r)
     (total_elapsed_seconds r) m m32 m64.

(** The body of the loop of [calc_stats]. *)
Definition accumulate (r : t) (lr : line_result.t) : t :=
  set_totals
    (mem_lift2 size_add (total_payload r) (Val (line_result.payload_size lr)))
    (mem_lift2 size_add (total_frame_overhead r)
               (Val (line_result.frame_overhead lr)))
    (mem_lift2 size_add (total_compressed_size r)
               (Val (line_result.compressed_size lr)))
    (total_ratio r)
    (mem_lift2 PrimFloat.add (total_elapsed_seconds r)
               (line_result.elapsed_seconds lr))
    r.

Definition mem_double_of_size_t (n : mem Z) : mem double :=
  match n with
  | Val z => Val (double_of_size_t z)
  | Indet => Indet
  end.

Definition calc_stats (r : t) : t :=
  let r0 :=
    set_totals (Val 0) (Val 0) (Val 0) (Val 0%float)
               (total_elapsed_seconds r) r in
  let r1 := fold_left accumulate (line_results r0) r0 in
  let r2 :=
    set_totals (total_payload r1) (total_frame_overhead r1)
               (total_compressed_size r1)
               (mem_lift2 PrimFloat.div
                          (mem_double_of_size_t (total_compressed_size r1))
                          (mem_double_of_size_t (total_payload r1)))
               (total_elapsed_seconds r1) r1 in
  if sending r2 then
    set_mem_stats
      (Val (to_size_t (int_add (int_shl 1 (int_add (window_bits r2) 2))
                               (int_shl 1 (int_add (memory_level r2) 9)))))
      (Val (to_size_t (int_add (int_shl 1 (window_bits r2))
                               (int_mul (int_mul 1440 2) 4))))
      (Val (to_size_t (int_add (int_shl 1 (window_bits r2))
                               (int_mul (int_mul 1440 2) 8))))
      r2
  else
    set_mem_stats
      (Val (size_add (to_size_t (int_shl 1 (window_bits r2)))
                     (to_size_t (to_size_t (int_mul 1440 2) * sizeof_int))))
      (Val 0) (Val 0)
      r2.

(** The settings parsing that [main] does in line for one argument. *)
Definition load_arg (arg : string) (r : t) : t :=
  match test_result.find "="%char arg with
  | Some pos =>
      let key := substring 0 pos arg in
      let val := substring (S pos) (String.length arg - S pos) arg in
      if String.eqb key "server" then
        set_is_server (if String.eqb val "true" then true else false) r
      else if String.eqb key "sending" then
        set_sending (if String.eqb val "true" then true else false) r
      else if String.eqb key "context_takeover" then
        set_context_takeover (if String.eqb val "true" then true else false) r
      else if String.eqb key "speed_levels" then
        set_speed_level (test_result.atoi val) r
      else if String.eqb key "window_bits" then
        set_window_bits (test_result.atoi val) r
      else if String.eqb key "memory_level" then
        set_memory_level (test_result.atoi val) r
      else r
  | None => r
  end.

(** The three range tests of [main]: the message of the first one that
    fails, after which [main] returns 1. *)
Definition range_error (r : t) : option string :=
  if (speed_level r >? 9) || (speed_level r <? 0) then
    Some test_result.msg_speed_level
  else if (window_bits r >? 15) || (window_bits r <? 8) then
    Some test_result.msg_window_bits
  else if (memory_level r >? 9) || (memory_level r <? 1) then
    Some test_result.msg_memory_level
  else None.

Inductive printed : Set :=
| Text (s : string)
| Help
| Stats (r : t).

End test_result.

Section Run.

Context {zlib : Zlib}.

Record session : Type := mk_session {
  zlib_state : z_state;
  out_buf : pod_buffer.t;
  r_of : test_result.t
}.

(** One iteration of the [while] loop: there is no way out of it. *)
Definition process_line (fl : flush) (s : session) (line : string) : session :=
  let r := r_of s in
  let lr_payload_size := size line in
  let lr_frame_overhead :=
    frame_overhead (negb (test_result.is_server r)) (size line) in
  match line with
  | EmptyString =>
      mk_session (zlib_state s) (out_buf s)
        (test_result.push_back
           (line_result.mk lr_payload_size lr_frame_overhead 2 2%float Indet) r)
  | _ =>
      let avail_in := to_uInt (size line) in
      let est_size := to_size_t (deflateBound (zlib_state s) (size line)) in
      let b1 := pod_buffer.set_cursor (pod_buffer.resize (out_buf s) est_size) 0 in
      let avail_out := to_uInt (pod_buffer.avail b1) in
      let d := deflate (zlib_state s) fl line avail_in avail_out in
      let avail_out' := to_uInt (dr_avail_out d) in
      let b2 :=
        pod_buffer.adv_cursor b1 (size_sub (pod_buffer.avail b1) avail_out') in
      let lr_compressed_size := size_sub (pod_buffer.cursor b2) 4 in
      let lr_ratio :=
        PrimFloat.div (double_of_size_t lr_compressed_size)
                      (double_of_size_t lr_payload_size) in
      mk_session (dr_state d) b2
        (test_result.push_back
           (line_result.mk lr_payload_size lr_frame_overhead
                           lr_compressed_size lr_ratio (Val (dr_seconds d))) r)
  end.

Definition deflate_lines (lines : list string) (r : test_result.t)
  : test_result.t :=
  let '(ret, zs) :=
    deflateInit2 (test_result.speed_level r) Z_DEFLATED
                 (int_mul (-1) (test_result.window_bits r))
                 (test_result.memory_level r) Z_DEFAULT_STRATEGY in
  let fl := if test_result.context_takeover r
            then Z_SYNC_FLUSH else Z_FULL_FLUSH in
  r_of (fold_left (process_line fl) lines (mk_session zs pod_buffer.init r)).

Definition deflate_test (input : string) (r : test_result.t) : test_result.t :=
  deflate_lines (getlines input) r.

Fixpoint load_args (args : list string) (r : test_result.t)
  : option test_result.t :=
  match args with
  | [] => Some r
  | arg :: args' =>
      if String.eqb arg "--help" || String.eqb arg "-h" then None
      else load_args args' (test_result.load_arg arg r)
  end.

(** [test_result r;] followed by the six assignments of [main]. *)
Definition main_settings : test_result.t :=
  test_result.mk true true true 6 15 8 []
                 Indet Indet Indet Indet Indet Indet Indet Indet.

(** The exit status and the text written to standard output.  The last
    case is the one of a run in which every call into zlib returns; this
    variant goes on after a failed [deflateInit2]. *)
Definition main (argv : list string) (input : string)
  : Z * list test_result.printed :=
  match load_args (tl argv) main_settings with
  | None => (0, [test_result.Help])
  | Some r =>
      match test_result.range_error r with
      | Some msg => (1, [test_result.Text msg])
      | None =>
          let r1 := deflate_test input r in
          (0, [test_result.Stats (test_result.calc_stats r1)])
      end
  end.

End Run.

End prototype.

(** The record of the earlier variant that corresponds to a record of the
    later one, and likewise for a [test_result]. *)
Definition strip (lr : line_result.t) : prototype.line_result.t :=
  prototype.line_result.mk
    (line_result.payload_size lr) (line_result.frame_overhead lr)
    (line_result.compressed_size lr) (line_result.ratio lr)
    (line_result.elapsed_seconds lr).

Definition strip_result (r : test_result.t) : prototype.test_result.t :=
  prototype.test_result.mk
    (test_result.is_server r) (test_result.sending r)
    (test_result.context_takeover r) (test_result.speed_level r)
    (test_result.window_bits r) (test_result.memory_level r)
    (map strip (test_result.line_results r))
    (test_result.total_payload r) (test_result.total_frame_overhead r)
    (test_result.total_compressed_size r) (test_result.total_ratio r)
    (test_result.total_elapsed_seconds r) (test_result.mem_usage r)
    (test_result.mem_usage_inflate_32 r) (test_result.mem_usage_inflate_64 r).

(** The session of the earlier variant that corresponds to a session of
    the later one. *)
Definition strip_session {zlib : Zlib} (s : session) : prototype.session :=
  prototype.mk_session (zlib_state s) (out_buf s) (strip_result (r_of s)).

(** The fields of a record as an iteration assigns them: the record of an
    empty line, or a record whose ratio is its compressed size over its
    payload size and whose time and compressed overhead are assigned. *)
Definition assigned_by_loop (r : test_result.t) (lr : line_result.t) : Prop :=
  lr = empty_record r
  \/ (line_result.payload_size lr <> 0
      /\ line_result.ratio lr
         = PrimFloat.div (double_of_size_t (line_result.compressed_size lr))
                         (double_of_size_t (line_result.payload_size lr))
      /\ (exists seconds, line_result.elapsed_seconds lr = Val seconds)
      /\ line_result.frame_overhead_compressed lr
         = Val (frame_overhead (negb (test_result.is_server r))
                               (line_result.compressed_size lr))).

(** An instance whose every [deflate] call has 20 bytes to write, whatever
    its input and its flush mode, and whose [deflateBound] answers the
    source length plus 10.  Its state never changes and the bytes it
    writes do not depend on the room given, so it meets the conditions on
    [Z_FULL_FLUSH]; its bound is too small for a line shorter than 11
    bytes. *)
Definition flat_deflate (st : list string) (fl : flush) (data : string)
  (avail_in avail_out : Z) : deflate_result (list string) :=
  mk_deflate_result [] (avail_out - Z.min 20 avail_out) toy_seconds.

Definition flat_zlib : Zlib :=
  {| z_state := list string;
     deflateInit2 := toy_init;
     deflateBound := fun _ sourceLen => sourceLen + 10;
     deflate := flat_deflate |}.

(** A line of 15 bytes followed by [hello], and the same two lines in the
    other order. *)
Definition long_then_hello : list string :=
  ["aaaaaaaaaaaaaaa"; "hello"]%string.
Definition hello_then_long : list string :=
  ["hello"; "aaaaaaaaaaaaaaa"]%string.

(** The members of a record that are computed from sizes: everything but
    the measured time (and, in the later variant, the compressed
    overhead, which the earlier variant does not have). *)
Definition sizes_of (lr : line_result.t) : Z * Z * Z * double :=
  (line_result.payload_size lr, line_result.frame_overhead lr,
   line_result.compressed_size lr, line_result.ratio lr).

Definition early_sizes_of (lr : prototype.line_result.t) : Z * Z * Z * double :=
  (prototype.line_result.payload_size lr, prototype.line_result.frame_overhead lr,
   prototype.line_result.compressed_size lr, prototype.line_result.ratio lr).

(** ** Proof automation *)

(** Splits on the next range test of [check_validity]. *)
Ltac range_test :=
  match goal with
  | |- context [Z.gtb ?a ?b] => destruct (Z.gtb_spec a b)
  | |- context [Z.ltb ?a ?b] => destruct (Z.ltb_spec a b)
  end; simpl.

(** Splits on which of the six keys of [load_setting] a key is. *)
Ltac key_cases key :=
  destruct (String.eqb_spec key "server");
  [| destruct (String.eqb_spec key "sending");
     [| destruct (String.eqb_spec key "context_takeover");
        [| destruct (String.eqb_spec key "speed_levels");
           [| destruct (String.eqb_spec key "window_bits");
              [| destruct (String.eqb_spec key "memory_level") ]]]]].

(** ** Theorems: the frame-overhead model *)

(** C10: an unmasked frame costs 2 bytes for a payload of at most 125 bytes,
    4 bytes from 126 up to 65535 and 8 bytes from 65536 on, and masking adds
    4 bytes at every payload size. *)
Theorem frame_overhead_table :
  forall p : Z,
    (p <= 125 -> frame_overhead false p = 2)
    /\ (126 <= p <= 65535 -> frame_overhead false p = 4)
    /\ (65536 <= p -> frame_overhead false p = 8)
    /\ frame_overhead true p = frame_overhead false p + 4.
Proof.
  intro p. unfold frame_overhead.
  destruct (Z.leb_spec p 125) as [H1|H1];
    destruct (Z.leb_spec p 65535) as [H2|H2];
    repeat split; intros; try lia; reflexivity.
Qed.

Lemma frame_overhead_table_witness :
  (frame_overhead false 0 = 2 /\ frame_overhead false 125 = 2
   /\ frame_overhead false 126 = 4 /\ frame_overhead false 65535 = 4
   /\ frame_overhead false 65536 = 8)
  /\ frame_overhead true 65535 = frame_overhead false 65535 + 4.
Proof.
  refine (conj (conj _ (conj _ (conj _ (conj _ _)))) _).
  - apply (proj1 (frame_overhead_table 0)). lia.
  - apply (proj1 (frame_overhead_table 125)). lia.
  - apply (proj1 (proj2 (frame_overhead_table 126))). lia.
  - apply (proj1 (proj2 (frame_overhead_table 65535))). lia.
  - apply (proj1 (proj2 (proj2 (frame_overhead_table 65536)))). lia.
  - apply (proj2 (proj2 (proj2 (frame_overhead_table 65535)))).
Defined.

(** ** Theorems: the settings parser *)

Lemma load_setting_no_equals :
  forall arg r, test_result.find "="%char arg = None ->
                test_result.load_setting arg r = r.
Proof.
  intros arg r H. unfold test_result.load_setting. rewrite H. reflexivity.
Qed.

(** A value that starts with neither white space, a sign nor a digit is
    read as 0. *)
Lemma atoi_not_a_number :
  forall (c : ascii) (s : string),
    test_result.isspace c = false ->
    test_result.digit_of c = None ->
    c <> "-"%char -> c <> "+"%char ->
    test_result.atoi (String c s) = 0.
Proof.
  intros c s Hsp Hd Hm Hp. unfold test_result.atoi, test_result.strtol10.
  simpl test_result.skip_space. rewrite Hsp.
  destruct c as [[] [] [] [] [] [] [] []];
    try discriminate Hd; try congruence; reflexivity.
Qed.

Example atoi_examples :
  test_result.atoi "7" = 7
  /\ test_result.atoi " -12abc" = -12
  /\ test_result.atoi "+5" = 5
  /\ test_result.atoi "abc" = 0
  /\ test_result.atoi "" = 0.
Proof. repeat split. Qed.

(** C3: the key that [load_setting] compares against is [speed_levels];
    a [speed_level=3] token, the spelling of the help text, leaves the
    configuration as it was, while the other five keys and [speed_levels]
    reach their fields. *)
Theorem load_setting_speed_level_key :
  test_result.load_setting "speed_level=3" test_result.fresh = test_result.fresh
  /\ test_result.speed_level
       (test_result.load_setting "speed_level=3" test_result.fresh) = 6
  /\ test_result.speed_level
       (test_result.load_setting "speed_levels=3" test_result.fresh) = 3
  /\ test_result.window_bits
       (test_result.load_setting "window_bits=9" test_result.fresh) = 9
  /\ test_result.memory_level
       (test_result.load_setting "memory_level=x" test_result.fresh) = 0
  /\ test_result.is_server
       (test_result.load_setting "server=false" test_result.fresh) = false
  /\ test_result.sending
       (test_result.load_setting "sending=TRUE" test_result.fresh) = false
  /\ test_result.context_takeover
       (test_result.load_setting "context_takeover=false" test_result.fresh)
     = false.
Proof. repeat split; vm_compute; reflexivity. Qed.

(** ** Theorems: the aggregate statistics *)

Lemma fold_accumulate_settings :
  forall l r,
    test_result.sending (fold_left test_result.accumulate l r)
    = test_result.sending r
    /\ test_result.window_bits (fold_left test_result.accumulate l r)
       = test_result.window_bits r
    /\ test_result.memory_level (fold_left test_result.accumulate l r)
       = test_result.memory_level r.
Proof.
  induction l as [|lr l IH]; intro r; simpl; [auto|].
  destruct (IH (test_result.accumulate r lr)) as (H1 & H2 & H3).
  rewrite H1, H2, H3. destruct r; auto.
Qed.

Lemma fold_accumulate_elapsed :
  forall l r,
    test_result.total_elapsed_seconds (fold_left test_result.accumulate l r)
    = fold_left (mem_lift2 PrimFloat.add)
                (map line_result.elapsed_seconds l)
                (test_result.total_elapsed_seconds r).
Proof.
  induction l as [|lr l IH]; intro r; simpl; [reflexivity|].
  rewrite IH. destruct r; reflexivity.
Qed.

Lemma fold_accumulate_sizes :
  forall l r,
    test_result.total_payload (fold_left test_result.accumulate l r)
    = fold_left (mem_lift2 size_add)
                (map (fun lr => Val (line_result.payload_size lr)) l)
                (test_result.total_payload r)
    /\ test_result.total_frame_overhead (fold_left test_result.accumulate l r)
       = fold_left (mem_lift2 size_add)
                   (map (fun lr => Val (line_result.frame_overhead lr)) l)
                   (test_result.total_frame_overhead r)
    /\ test_result.total_frame_overhead_compressed
         (fold_left test_result.accumulate l r)
       = fold_left (mem_lift2 size_add)
                   (map line_result.frame_overhead_compressed l)
                   (test_result.total_frame_overhead_compressed r)
    /\ test_result.total_compressed_size (fold_left test_result.accumulate l r)
       = fold_left (mem_lift2 size_add)
                   (map (fun lr => Val (line_result.compressed_size lr)) l)
                   (test_result.total_compressed_size r).
Proof.
  induction l as [|lr l IH]; intro r; simpl; [auto|].
  destruct (IH (test_result.accumulate r lr)) as (H1 & H2 & H3 & H4).
  rewrite H1, H2, H3, H4. destruct r; auto.
Qed.

(** X2: what one call of [calc_stats] leaves in [total_elapsed_seconds]:
    the value the member held before the call, plus every record's time,
    added in the order of the records. *)
Theorem calc_stats_elapsed :
  forall r,
    test_result.total_elapsed_seconds (test_result.calc_stats r)
    = fold_left (mem_lift2 PrimFloat.add)
                (map line_result.elapsed_seconds (test_result.line_results r))
                (test_result.total_elapsed_seconds r).
Proof.
  intro r. unfold test_result.calc_stats.
  match goal with
  | |- context [fold_left test_result.accumulate ?l ?r0] =>
      pose proof (fold_accumulate_settings l r0) as (Hs & _);
      pose proof (fold_accumulate_elapsed l r0) as He
  end.
  destruct r; simpl in *.
  match goal with
  | |- context [if ?b then _ else _] => destruct b
  end; simpl; exact He.
Qed.

(** X1: the four [size_t] totals restart from 0 at every call of
    [calc_stats] and end as the sums, modulo 2^64, of their fields over the
    records; a record whose [frame_overhead_compressed] was never assigned
    makes that total indeterminate. *)
Theorem calc_stats_sizes :
  forall r,
    test_result.total_payload (test_result.calc_stats r)
    = fold_left (mem_lift2 size_add)
                (map (fun lr => Val (line_result.payload_size lr))
                     (test_result.line_results r)) (Val 0)
    /\ test_result.total_frame_overhead (test_result.calc_stats r)
       = fold_left (mem_lift2 size_add)
                   (map (fun lr => Val (line_result.frame_overhead lr))
                        (test_result.line_results r)) (Val 0)
    /\ test_result.total_frame_overhead_compressed (test_result.calc_stats r)
       = fold_left (mem_lift2 size_add)
                   (map line_result.frame_overhead_compressed
                        (test_result.line_results r)) (Val 0)
    /\ test_result.total_compressed_size (test_result.calc_stats r)
       = fold_left (mem_lift2 size_add)
                   (map (fun lr => Val (line_result.compressed_size lr))
                        (test_result.line_results r)) (Val 0).
Proof.
  intro r. unfold test_result.calc_stats.
  match goal with
  | |- context [fold_left test_result.accumulate ?l ?r0] =>
      pose proof (fold_accumulate_sizes l r0) as Hz
  end.
  destruct r; simpl in *.
  match goal with
  | |- context [if ?b then _ else _] => destruct b
  end; simpl; exact Hz.
Qed.

(** C2: [calc_stats] does not assign 0 to [total_elapsed_seconds] before
    its loop.  On two records timed 0.25 s and 0.5 s, a first call from a
    total of 0 gives 0.75, a second call gives 1.5 although the four sizes
    and the ratio are recomputed to the same sums, and a call on a
    [test_result] whose total was never assigned gives an indeterminate
    value. *)
Theorem calc_stats_elapsed_accumulates :
  let r0 := with_records two_records (Val 0%float) in
  let r1 := test_result.calc_stats r0 in
  let r2 := test_result.calc_stats r1 in
  test_result.total_elapsed_seconds r1 = Val 0.75%float
  /\ test_result.total_elapsed_seconds r2 = Val 1.5%float
  /\ test_result.total_payload r2 = Val 1010
  /\ test_result.total_frame_overhead r2 = Val 6
  /\ test_result.total_frame_overhead_compressed r2 = Val 6
  /\ test_result.total_compressed_size r2 = Val 208
  /\ test_result.total_ratio r2
     = Val (PrimFloat.div (double_of_size_t 208) (double_of_size_t 1010))
  /\ test_result.total_elapsed_seconds
       (test_result.calc_stats (with_records two_records Indet)) = Indet.
Proof. repeat split; vm_compute; reflexivity. Qed.

Lemma calc_stats_mem_stats :
  forall r,
    let wb := test_result.window_bits r in
    let ml := test_result.memory_level r in
    let r' := test_result.calc_stats r in
    (test_result.mem_usage r', test_result.mem_usage_inflate_32 r',
     test_result.mem_usage_inflate_64 r')
    = if test_result.sending r then
        (Val (to_size_t (int_add (int_shl 1 (int_add wb 2))
                                 (int_shl 1 (int_add ml 9)))),
         Val (to_size_t (int_add (int_shl 1 wb) (int_mul (int_mul 1440 2) 4))),
         Val (to_size_t (int_add (int_shl 1 wb) (int_mul (int_mul 1440 2) 8))))
      else
        (Val (size_add (to_size_t (int_shl 1 wb))
                       (to_size_t (to_size_t (int_mul 1440 2) * sizeof_int))),
         Val 0, Val 0).
Proof.
  intro r. unfold test_result.calc_stats.
  match goal with
  | |- context [fold_left test_result.accumulate ?l ?r0] =>
      pose proof (fold_accumulate_settings l r0) as (Hs & Hw & Hm)
  end.
  destruct r; simpl in *. rewrite Hs, Hw, Hm.
  match goal with
  | |- context [if ?b then _ else _] => destruct b
  end; reflexivity.
Qed.

Lemma window_bits_cases :
  forall wb, 8 <= wb <= 15 ->
    wb = 8 \/ wb = 9 \/ wb = 10 \/ wb = 11 \/ wb = 12 \/ wb = 13 \/ wb = 14
    \/ wb = 15.
Proof. intros; lia. Qed.

Lemma memory_level_cases :
  forall ml, 1 <= ml <= 9 ->
    ml = 1 \/ ml = 2 \/ ml = 3 \/ ml = 4 \/ ml = 5 \/ ml = 6 \/ ml = 7
    \/ ml = 8 \/ ml = 9.
Proof. intros; lia. Qed.

(** C7: for a window size and a memory level in the validated ranges,
    [calc_stats] sets, when sending, [mem_usage] to
    (1 << (window_bits+2)) + (1 << (memory_level+9)) and the two peer
    figures to (1 << window_bits) + 1440*2*4 and (1 << window_bits) +
    1440*2*8; when receiving, [mem_usage] to (1 << window_bits) +
    1440*2*sizeof(int) and both peer figures to 0. *)
Theorem calc_stats_memory :
  forall r,
    8 <= test_result.window_bits r <= 15 ->
    1 <= test_result.memory_level r <= 9 ->
    let wb := test_result.window_bits r in
    let ml := test_result.memory_level r in
    let r' := test_result.calc_stats r in
    (test_result.sending r = true ->
     test_result.mem_usage r' = Val (Z.shiftl 1 (wb + 2) + Z.shiftl 1 (ml + 9))
     /\ test_result.mem_usage_inflate_32 r' = Val (Z.shiftl 1 wb + 1440 * 2 * 4)
     /\ test_result.mem_usage_inflate_64 r' = Val (Z.shiftl 1 wb + 1440 * 2 * 8))
    /\ (test_result.sending r = false ->
        test_result.mem_usage r' = Val (Z.shiftl 1 wb + 1440 * 2 * sizeof_int)
        /\ test_result.mem_usage_inflate_32 r' = Val 0
        /\ test_result.mem_usage_inflate_64 r' = Val 0).
Proof.
  intros r Hw Hm wb ml r'.
  pose proof (calc_stats_mem_stats r) as H. cbv zeta in H.
  fold wb ml r' in H.
  assert (Hsend :
            (Val (to_size_t (int_add (int_shl 1 (int_add wb 2))
                                     (int_shl 1 (int_add ml 9)))),
             Val (to_size_t (int_add (int_shl 1 wb) (int_mul (int_mul 1440 2) 4))),
             Val (to_size_t (int_add (int_shl 1 wb) (int_mul (int_mul 1440 2) 8))))
            = (Val (Z.shiftl 1 (wb + 2) + Z.shiftl 1 (ml + 9)),
               Val (Z.shiftl 1 wb + 1440 * 2 * 4),
               Val (Z.shiftl 1 wb + 1440 * 2 * 8))).
  { destruct (window_bits_cases wb Hw) as [E|[E|[E|[E|[E|[E|[E|E]]]]]]];
      destruct (memory_level_cases ml Hm)
        as [F|[F|[F|[F|[F|[F|[F|[F|F]]]]]]]];
      rewrite E, F; reflexivity. }
  assert (Hrecv :
            Val (size_add (to_size_t (int_shl 1 wb))
                          (to_size_t (to_size_t (int_mul 1440 2) * sizeof_int)))
            = Val (Z.shiftl 1 wb + 1440 * 2 * sizeof_int)).
  { destruct (window_bits_cases wb Hw) as [E|[E|[E|[E|[E|[E|[E|E]]]]]]];
      rewrite E; reflexivity. }
  split; intro Hs; rewrite Hs in H.
  - rewrite Hsend in H. inversion H. auto.
  - rewrite Hrecv in H. inversion H. auto.
Qed.

Lemma calc_stats_memory_witness :
  (test_result.mem_usage (test_result.calc_stats test_result.fresh)
   = Val 262144
   /\ test_result.mem_usage_inflate_32 (test_result.calc_stats test_result.fresh)
      = Val (32768 + 11520)
   /\ test_result.mem_usage_inflate_64 (test_result.calc_stats test_result.fresh)
      = Val (32768 + 23040))
  /\ (let r := test_result.set_sending false test_result.fresh in
      test_result.mem_usage (test_result.calc_stats r)
      = Val (32768 + 1440 * 2 * sizeof_int)
      /\ test_result.mem_usage_inflate_32 (test_result.calc_stats r) = Val 0
      /\ test_result.mem_usage_inflate_64 (test_result.calc_stats r) = Val 0).
Proof.
  split.
  - apply (calc_stats_memory test_result.fresh); simpl; [lia | lia | reflexivity].
  - apply (calc_stats_memory (test_result.set_sending false test_result.fresh));
      simpl; [lia | lia | reflexivity].
Defined.

(** ** Theorems: validation *)

Lemma check_validity_accept :
  forall r, in_ranges r ->
    test_result.check_validity r = (negb (test_result.error r), r, []).
Proof.
  intros r (Hs & Hw & Hm). unfold test_result.check_validity.
  destruct r; simpl in *.
  repeat range_test; try lia; reflexivity.
Qed.

Lemma check_validity_reject :
  forall r, ~ in_ranges r ->
    exists msgs,
      test_result.check_validity r
      = (false, test_result.set_error true r, msgs)
      /\ msgs <> [].
Proof.
  intros r H. unfold in_ranges in H. unfold test_result.check_validity.
  destruct r; simpl in *.
  repeat range_test; try (exfalso; lia);
    (eexists; split; [reflexivity | discriminate]).
Qed.

Lemma in_ranges_dec : forall r, in_ranges r \/ ~ in_ranges r.
Proof. intro r. unfold in_ranges. lia. Qed.

(** ** Theorems: the per-line loop *)

Section LoopFacts.

Context {zlib : Zlib}.

Lemma to_uInt_range : forall z, 0 <= to_uInt z < 2 ^ 32.
Proof. intro z. unfold to_uInt. apply Z.mod_pos_bound. lia. Qed.

Lemma to_size_t_range : forall z, 0 <= to_size_t z < 2 ^ 64.
Proof. intro z. unfold to_size_t. apply Z.mod_pos_bound. lia. Qed.

Lemma to_size_t_small : forall z, 0 <= z < 2 ^ 64 -> to_size_t z = z.
Proof. intros z H. unfold to_size_t. apply Z.mod_small. exact H. Qed.

(** After [set_cursor(0)] and [adv_cursor(avail() - avail_out)], what
    [avail()] answers is the [avail_out] that zlib left. *)
Lemma avail_after_advance :
  forall b a,
    0 <= a < 2 ^ 32 ->
    let b1 := pod_buffer.set_cursor b 0 in
    pod_buffer.avail
      (pod_buffer.adv_cursor b1 (size_sub (pod_buffer.avail b1) a)) = a.
Proof.
  intros b a Ha. destruct b as [cur cap].
  unfold pod_buffer.avail, pod_buffer.adv_cursor, pod_buffer.set_cursor,
    size_sub, size_add, to_size_t; simpl pod_buffer.m_cursor;
    simpl pod_buffer.m_capacity.
  rewrite Z.sub_0_r.
  change (0 + ?x) with x.
  rewrite Zminus_mod_idemp_l, Z.mod_mod by lia.
  rewrite Zminus_mod_idemp_r.
  replace (cap - (cap - a)) with a by ring.
  apply Z.mod_small. lia.
Qed.

Lemma process_line_empty :
  forall fl s,
    process_line fl s EmptyString
    = Continue
        (mk_session (zlib_state s) (out_buf s)
           (test_result.push_back
              (line_result.mk
                 0 (frame_overhead (negb (test_result.is_server (r_of s))) 0)
                 Indet 2 2%float Indet)
              (r_of s))
           (calls_of s)).
Proof. reflexivity. Qed.

(** The buffer an iteration hands to zlib and the one it is left with. *)
Lemma process_line_nonempty :
  forall fl s line,
    line <> EmptyString ->
    let est := to_size_t (deflateBound (zlib_state s) (size line)) in
    let b1 := pod_buffer.set_cursor (pod_buffer.resize (out_buf s) est) 0 in
    let d := deflate (zlib_state s) fl line (to_uInt (size line)) (offered s line) in
    let b2 :=
      pod_buffer.adv_cursor b1
        (size_sub (pod_buffer.avail b1) (left_after fl s line)) in
    let calls :=
      calls_of s ++ [Call_deflateBound (size line);
                     Call_deflate fl line (to_uInt (size line)) (offered s line)] in
    let cs := size_sub (pod_buffer.cursor b2) 4 in
    process_line fl s line
    = if left_after fl s line =? 0 then
        Fatal (mk_session (dr_state d) b2
                          (test_result.set_error true (r_of s)) calls)
      else
        Continue
          (mk_session (dr_state d) b2
             (test_result.push_back
                (line_result.mk
                   (size line)
                   (frame_overhead (negb (test_result.is_server (r_of s)))
                                   (size line))
                   (Val (frame_overhead
                           (negb (test_result.is_server (r_of s))) cs))
                   cs
                   (PrimFloat.div (double_of_size_t cs)
                                  (double_of_size_t (size line)))
                   (Val (dr_seconds d)))
                (r_of s))
             calls).
Proof.
  intros fl s line Hne est b1 d b2 calls cs.
  destruct line as [|c l]; [congruence|].
  unfold process_line.
  fold est. fold b1.
  change (to_uInt (pod_buffer.avail b1)) with (offered s (String c l)).
  fold d.
  change (to_uInt (dr_avail_out d)) with (left_after fl s (String c l)).
  fold b2. fold calls.
  assert (Hav : pod_buffer.avail b2 = left_after fl s (String c l)).
  { unfold b2, b1. apply avail_after_advance. apply to_uInt_range. }
  rewrite Hav. reflexivity.
Qed.

Lemma process_line_exhausted :
  forall fl s line,
    exhausted fl s line ->
    exists s',
      process_line fl s line = Fatal s'
      /\ r_of s' = test_result.set_error true (r_of s).
Proof.
  intros fl s line (Hne & Hleft).
  rewrite (process_line_nonempty fl s line Hne). cbv zeta.
  rewrite Hleft. simpl. eexists; split; reflexivity.
Qed.

Lemma process_line_not_exhausted :
  forall fl s line,
    ~ exhausted fl s line ->
    exists s' lr,
      process_line fl s line = Continue s'
      /\ r_of s' = test_result.push_back lr (r_of s)
      /\ line_result.payload_size lr = size line.
Proof.
  intros fl s line Hn.
  destruct line as [|c l].
  - rewrite process_line_empty. eexists; eexists. split; [reflexivity|].
    split; reflexivity.
  - assert (Hne : String c l <> EmptyString) by discriminate.
    rewrite (process_line_nonempty fl s _ Hne). cbv zeta.
    destruct (left_after fl s (String c l) =? 0) eqn:E.
    + exfalso. apply Hn. split; [exact Hne | apply Z.eqb_eq; exact E].
    + eexists; eexists. split; [reflexivity|]. split; reflexivity.
Qed.

Lemma size_zero_empty : forall line, size line = 0 -> line = EmptyString.
Proof.
  intros [|c l]; [reflexivity|]. unfold size. simpl String.length. lia.
Qed.

Lemma deflate_loop_app :
  forall fl pre post s,
    deflate_loop fl (pre ++ post) s
    = match deflate_loop fl pre s with
      | Continue s' => deflate_loop fl post s'
      | Fatal s' => Fatal s'
      end.
Proof.
  intros fl pre post. induction pre as [|x pre IH]; intro s; simpl.
  - reflexivity.
  - destruct (process_line fl s x) as [s'|s']; [apply IH | reflexivity].
Qed.

(** A property of the session that every iteration keeps, whether the
    iteration goes on or stops the run, holds when the loop is left. *)
Lemma deflate_loop_invariant :
  forall (P : session -> Prop) fl,
    (forall s line, P s -> P (final (process_line fl s line))) ->
    forall lines s, P s -> P (final (deflate_loop fl lines s)).
Proof.
  intros P fl Hstep lines. induction lines as [|x lines IH]; intros s Hs.
  - exact Hs.
  - simpl. specialize (Hstep s x Hs).
    destruct (process_line fl s x) as [s'|s']; simpl in Hstep.
    + apply IH. exact Hstep.
    + exact Hstep.
Qed.

(** What an iteration does to the returned [test_result]: it appends one
    record whose overheads are computed with the masking flag
    [!is_server], or it raises [error] and appends nothing; it changes no
    setting. *)
Lemma process_line_result :
  forall fl s line,
    let r := r_of s in
    let r' := r_of (final (process_line fl s line)) in
    (exists lr,
        r' = test_result.push_back lr r
        /\ overheads_with (negb (test_result.is_server r)) lr)
    \/ r' = test_result.set_error true r.
Proof.
  intros fl s line. cbv zeta.
  destruct line as [|c l].
  - left. rewrite process_line_empty. simpl.
    eexists. split; [reflexivity|].
    split; simpl; [reflexivity | intro H; congruence].
  - assert (Hne : String c l <> EmptyString) by discriminate.
    rewrite (process_line_nonempty fl s _ Hne). cbv zeta.
    destruct (left_after fl s (String c l) =? 0).
    + right. reflexivity.
    + left. simpl. eexists. split; [reflexivity|].
      split; simpl; [reflexivity | intros _; reflexivity].
Qed.

(** What an iteration does to the list of zlib calls: it adds nothing, or
    one [deflateBound] and one [deflate]. *)
Lemma process_line_calls :
  forall fl s line,
    exists extra,
      calls_of (final (process_line fl s line)) = calls_of s ++ extra
      /\ Forall (fun c => is_deflate c = true) extra.
Proof.
  intros fl s line. destruct line as [|c l].
  - exists []. rewrite process_line_empty. simpl.
    rewrite app_nil_r. split; [reflexivity | constructor].
  - assert (Hne : String c l <> EmptyString) by discriminate.
    rewrite (process_line_nonempty fl s _ Hne). cbv zeta.
    eexists. split.
    + destruct (left_after fl s (String c l) =? 0); simpl; reflexivity.
    + repeat constructor.
Qed.

Lemma deflate_loop_calls :
  forall fl lines s,
    exists extra,
      calls_of (final (deflate_loop fl lines s)) = calls_of s ++ extra
      /\ Forall (fun c => is_deflate c = true) extra.
Proof.
  intros fl lines s.
  apply (deflate_loop_invariant
           (fun s' => exists extra,
                calls_of s' = calls_of s ++ extra
                /\ Forall (fun c => is_deflate c = true) extra) fl).
  - intros s1 line (e1 & H1 & F1).
    destruct (process_line_calls fl s1 line) as (e2 & H2 & F2).
    exists (e1 ++ e2). rewrite H2, H1, app_assoc.
    split; [reflexivity | apply Forall_app; split; assumption].
  - exists []. rewrite app_nil_r. split; [reflexivity | constructor].
Qed.

Lemma deflate_loop_records :
  forall fl lines s,
    let b := negb (test_result.is_server (r_of s)) in
    let r' := r_of (final (deflate_loop fl lines s)) in
    test_result.is_server r' = test_result.is_server (r_of s)
    /\ exists recs,
        test_result.line_results r'
        = test_result.line_results (r_of s) ++ recs
        /\ Forall (overheads_with b) recs.
Proof.
  intros fl lines s b. cbv zeta.
  apply (deflate_loop_invariant
           (fun s' =>
              test_result.is_server (r_of s')
              = test_result.is_server (r_of s)
              /\ exists recs,
                  test_result.line_results (r_of s')
                  = test_result.line_results (r_of s) ++ recs
                  /\ Forall (overheads_with b) recs) fl).
  - intros s1 line (Hsrv & recs & Hrecs & Hall).
    destruct (process_line_result fl s1 line) as [(lr & Hr & Hlr) | Hr];
      rewrite Hr.
    + split; [destruct (r_of s1); exact Hsrv|].
      exists (recs ++ [lr]). split.
      * destruct (r_of s1); simpl in *. rewrite Hrecs, app_assoc. reflexivity.
      * apply Forall_app. split; [exact Hall|].
        constructor; [|constructor]. unfold b. rewrite <- Hsrv. exact Hlr.
    + split; [destruct (r_of s1); exact Hsrv|].
      exists recs. split; [destruct (r_of s1); exact Hrecs | exact Hall].
  - split; [reflexivity|]. exists []. rewrite app_nil_r.
    split; [reflexivity | constructor].
Qed.

End LoopFacts.

(** ** Theorems: whole runs of [deflate_lines] *)

Section RunFacts.

Context {zlib : Zlib}.

Lemma set_error_idem :
  forall r, test_result.error r = true -> test_result.set_error true r = r.
Proof. intros r H. destruct r; simpl in *. subst. reflexivity. Qed.

(** A run that validation stops: the [error] flag is up, zlib was never
    called and the records are the ones [r] came with. *)
Lemma deflate_lines_stopped :
  forall lines r,
    test_result.error r = true \/ ~ in_ranges r ->
    exists msgs,
      deflate_lines lines r
      = mk_run (test_result.set_error true r) [] (map test_result.Text msgs).
Proof.
  intros lines r H. unfold deflate_lines.
  destruct (in_ranges_dec r) as [Hin|Hout].
  - destruct H as [He|Hn]; [|contradiction].
    rewrite (check_validity_accept r Hin), He. simpl.
    rewrite (set_error_idem r He). exists []. reflexivity.
  - destruct (check_validity_reject r Hout) as (msgs & Hc & _).
    rewrite Hc. simpl. exists msgs. reflexivity.
Qed.

(** A run that passes validation: the context is opened, and the loop
    runs when that succeeded. *)
Lemma deflate_lines_started :
  forall lines r,
    test_result.error r = false -> in_ranges r ->
    deflate_lines lines r
    = let fl := if test_result.context_takeover r
                then Z_SYNC_FLUSH else Z_FULL_FLUSH in
      if negb (fst (init_call r) =? Z_OK) then
        mk_run (test_result.set_error true r)
               (calls_of (first_session r (snd (init_call r))
                                        (fst (init_call r))))
               [test_result.Text msg_setup]
      else
        match deflate_loop fl lines
                (first_session r (snd (init_call r)) (fst (init_call r))) with
        | Continue s => mk_run (r_of s) (calls_of s) []
        | Fatal s => mk_run (r_of s) (calls_of s) [test_result.Text msg_memory]
        end.
Proof.
  intros lines r He Hin. unfold deflate_lines.
  rewrite (check_validity_accept r Hin), He. simpl negb. cbv iota beta.
  unfold init_call, first_session.
  destruct (deflateInit2 _ _ _ _ _) as [ret zs]. simpl.
  destruct (ret =? Z_OK); simpl; [|reflexivity].
  destruct (deflate_loop _ _ _); reflexivity.
Qed.

Lemma run_of_loop :
  forall (st : step),
    result (match st with
            | Continue s => mk_run (r_of s) (calls_of s) []
            | Fatal s => mk_run (r_of s) (calls_of s) [test_result.Text msg_memory]
            end) = r_of (final st)
    /\ calls (match st with
              | Continue s => mk_run (r_of s) (calls_of s) []
              | Fatal s =>
                  mk_run (r_of s) (calls_of s) [test_result.Text msg_memory]
              end) = calls_of (final st).
Proof. intros [s|s]; split; reflexivity. Qed.

Lemma context_allocated_deflate :
  forall l live,
    Forall (fun c => is_deflate c = true) l ->
    context_allocated live l = live.
Proof.
  induction l as [|c l IH]; intros live H; [reflexivity|].
  inversion H as [|? ? Hc Hl]; subst.
  destruct c; simpl in *; try discriminate; apply IH; exact Hl.
Qed.

Lemma is_deflate_not_end :
  forall l, Forall (fun c => is_deflate c = true) l ->
            Forall (fun c => is_deflateEnd c = false) l.
Proof.
  intros l H. eapply Forall_impl; [|exact H].
  intros [] Hc; simpl in *; congruence.
Qed.

(** The calls of any run: none, or one [deflateInit2] followed by
    [deflateBound] and [deflate] calls only. *)
Lemma deflate_lines_calls :
  forall lines r,
    (calls (deflate_lines lines r) = []
     /\ (test_result.error r = true \/ ~ in_ranges r))
    \/ (test_result.error r = false /\ in_ranges r
        /\ exists extra,
            calls (deflate_lines lines r)
            = Call_deflateInit2 (test_result.speed_level r)
                                (int_mul (-1) (test_result.window_bits r))
                                (test_result.memory_level r)
                                (fst (init_call r)) :: extra
            /\ Forall (fun c => is_deflate c = true) extra).
Proof.
  intros lines r.
  destruct (test_result.error r) eqn:He.
  - left. destruct (deflate_lines_stopped lines r (or_introl He)) as (m & H).
    rewrite H. split; [reflexivity | left; reflexivity].
  - destruct (in_ranges_dec r) as [Hin|Hout].
    + right. split; [reflexivity|]. split; [exact Hin|].
      rewrite (deflate_lines_started lines r He Hin). cbv zeta.
      destruct (fst (init_call r) =? Z_OK); simpl negb; cbv iota.
      * match goal with
        | |- context [deflate_loop ?fl lines ?s] =>
            destruct (deflate_loop_calls fl lines s) as (extra & Hc & Hf);
            rewrite (proj2 (run_of_loop (deflate_loop fl lines s))), Hc
        end.
        exists extra. split; [reflexivity | exact Hf].
      * exists []. split; [reflexivity | constructor].
    + left. destruct (deflate_lines_stopped lines r (or_intror Hout)) as (m & H).
      rewrite H. split; [reflexivity | right; exact Hout].
Qed.

Lemma appended_app :
  forall r t recs,
    test_result.line_results (result t) = test_result.line_results r ++ recs ->
    appended r t = recs.
Proof.
  intros r t recs H. unfold appended. rewrite H.
  rewrite skipn_app, skipn_all, Nat.sub_diag. reflexivity.
Qed.

(** The records of any run: the ones [r] came with, then records whose
    overheads are computed with the flag [!is_server]. *)
Lemma deflate_lines_records :
  forall lines r,
    exists recs,
      test_result.line_results (result (deflate_lines lines r))
      = test_result.line_results r ++ recs
      /\ Forall (overheads_with (negb (test_result.is_server r))) recs.
Proof.
  intros lines r.
  destruct (deflate_lines_calls lines r) as [(_ & Hstop) | (He & Hin & _)].
  - destruct (deflate_lines_stopped lines r Hstop) as (m & H). rewrite H.
    exists []. rewrite app_nil_r. split; [destruct r; reflexivity | constructor].
  - rewrite (deflate_lines_started lines r He Hin). cbv zeta.
    destruct (fst (init_call r) =? Z_OK); simpl negb; cbv iota.
    + match goal with
      | |- context [deflate_loop ?fl lines ?s] =>
          rewrite (proj1 (run_of_loop (deflate_loop fl lines s)));
          destruct (deflate_loop_records fl lines s) as (_ & recs & Hr & Hf)
      end.
      exists recs. split; [exact Hr | exact Hf].
    + exists []. rewrite app_nil_r.
      split; [destruct r; reflexivity | constructor].
Qed.

End RunFacts.

(** ** Theorems: the claims about whole runs *)

(** C1 (as the code has it): every record a run appends has its
    uncompressed frame overhead, and for a non-empty message its compressed
    frame overhead, computed with the masking flag [!is_server]: true
    exactly for a client, whatever the direction. *)
Theorem overheads_masked_for_client :
  forall (zlib : Zlib) (lines : list string) (r : test_result.t),
    Forall (overheads_with (negb (test_result.is_server r)))
           (appended r (deflate_lines lines r)).
Proof.
  intros zlib lines r.
  destruct (deflate_lines_records lines r) as (recs & Hr & Hf).
  rewrite (appended_app r _ recs Hr). exact Hf.
Qed.

(** C1, counterexample: a receiving client.  The flag of the claim,
    sending and client, is false, yet the record of the message [a] carries
    the masked overheads 6 and 6, not 2 and 2. *)
Lemma overheads_receiving_client_masked :
  let r := client_receiving in
  let claimed := test_result.sending r && negb (test_result.is_server r) in
  claimed = false
  /\ exists lr,
      appended r (@deflate_lines (toy_zlib 13) ["a"%string] r) = [lr]
      /\ line_result.frame_overhead lr = 6
      /\ line_result.frame_overhead_compressed lr = Val 6
      /\ frame_overhead claimed (line_result.payload_size lr) = 2
      /\ frame_overhead claimed (line_result.compressed_size lr) = 2
      /\ ~ overheads_with claimed lr.
Proof.
  split; [reflexivity|].
  eexists. split; [vm_compute; reflexivity|].
  repeat (split; [vm_compute; reflexivity|]).
  intros [H _]. vm_compute in H. discriminate H.
Qed.

(** C4 (as the code has it): no run ever calls [deflateEnd].  A context is
    allocated when [deflate_lines] returns exactly when validation passed
    and [deflateInit2] answered [Z_OK]: a run stopped by validation or by
    a failed [deflateInit2] returns with no context, every other run, ended
    by the end of input or by buffer exhaustion, returns with the context
    still allocated. *)
Theorem context_never_released :
  forall (zlib : Zlib) (lines : list string) (r : test_result.t),
    let t := deflate_lines lines r in
    Forall (fun c => is_deflateEnd c = false) (calls t)
    /\ (context_allocated false (calls t) = true
        <-> test_result.error r = false /\ in_ranges r
            /\ fst (init_call r) = Z_OK).
Proof.
  intros zlib lines r t. unfold t.
  destruct (deflate_lines_calls lines r)
    as [(Hc & Hstop) | (He & Hin & extra & Hc & Hf)]; rewrite Hc.
  - split; [constructor|]. simpl. split; [discriminate|].
    intros (He & Hin & _). destruct Hstop; congruence.
  - split.
    + constructor; [reflexivity | apply is_deflate_not_end; exact Hf].
    + simpl. rewrite (context_allocated_deflate extra _ Hf).
      rewrite Z.eqb_eq. tauto.
Qed.

(** C4, counterexample: the default settings and an input without any
    line.  The run ends normally and the context [deflateInit2] allocated
    is still allocated. *)
Lemma context_allocated_at_normal_end :
  let t := @deflate_test (toy_zlib 13) EmptyString test_result.fresh in
  test_result.error (result t) = false
  /\ calls t = [Call_deflateInit2 6 (-15) 8 Z_OK]
  /\ context_allocated false (calls t) <> false.
Proof.
  split; [reflexivity|]. split; [reflexivity|]. vm_compute. discriminate.
Qed.

(** C5: the record of an empty line.  For every session and flush mode the
    iteration appends a record with payload size 0, the frame overhead of
    size 0, compressed size 2 and ratio 2.0 and calls nothing in zlib; it
    assigns neither [elapsed_seconds] nor [frame_overhead_compressed], which
    stay indeterminate. *)
Theorem empty_line_record :
  forall (zlib : Zlib) (fl : flush) (s : session),
    exists lr,
      process_line fl s EmptyString
      = Continue (mk_session (zlib_state s) (out_buf s)
                             (test_result.push_back lr (r_of s)) (calls_of s))
      /\ line_result.payload_size lr = 0
      /\ line_result.compressed_size lr = 2
      /\ line_result.ratio lr = 2%float
      /\ line_result.frame_overhead lr
         = frame_overhead (negb (test_result.is_server (r_of s))) 0
      /\ line_result.elapsed_seconds lr = Indet
      /\ line_result.elapsed_seconds lr <> Val 0%float
      /\ line_result.frame_overhead_compressed lr = Indet.
Proof.
  intros zlib fl s. eexists. split; [apply process_line_empty|].
  simpl. repeat split; discriminate.
Qed.

(** C8: with the [error] flag down, [check_validity] accepts exactly a
    speed level in 0..9, a window size in 8..15 and a memory level in 1..9;
    with a value outside its range the run returns with [error] up, no call
    made into zlib and no record added. *)
Theorem validation_ranges :
  forall (zlib : Zlib) (r : test_result.t),
    (test_result.error r = false ->
     (fst (fst (test_result.check_validity r)) = true
      <-> 0 <= test_result.speed_level r <= 9
          /\ 8 <= test_result.window_bits r <= 15
          /\ 1 <= test_result.memory_level r <= 9))
    /\ (~ in_ranges r ->
        forall lines : list string,
          let t := deflate_lines lines r in
          test_result.error (result t) = true
          /\ calls t = []
          /\ test_result.line_results (result t) = test_result.line_results r).
Proof.
  intros zlib r. split.
  - intro He. fold (in_ranges r). destruct (in_ranges_dec r) as [Hin|Hout].
    + rewrite (check_validity_accept r Hin), He. simpl. tauto.
    + destruct (check_validity_reject r Hout) as (m & Hc & _). rewrite Hc.
      simpl. split; [discriminate | contradiction].
  - intros Hout lines t. unfold t.
    destruct (deflate_lines_stopped lines r (or_intror Hout)) as (m & H).
    rewrite H. simpl. destruct r; auto.
Qed.

Lemma validation_ranges_witness :
  (fst (fst (test_result.check_validity (with_levels 0 8 1))) = true
   /\ fst (fst (test_result.check_validity (with_levels 9 15 9))) = true)
  /\ (fst (fst (test_result.check_validity (with_levels (-1) 15 8))) <> true
      /\ fst (fst (test_result.check_validity (with_levels 10 15 8))) <> true
      /\ fst (fst (test_result.check_validity (with_levels 6 7 8))) <> true
      /\ fst (fst (test_result.check_validity (with_levels 6 16 8))) <> true
      /\ fst (fst (test_result.check_validity (with_levels 6 15 0))) <> true
      /\ fst (fst (test_result.check_validity (with_levels 6 15 10))) <> true)
  /\ (let t := @deflate_lines (toy_zlib 13) ["a"%string] (with_levels 6 16 8) in
      test_result.error (result t) = true
      /\ calls t = []
      /\ test_result.line_results (result t) = []).
Proof.
  split; [|split].
  - split.
    + apply (proj1 (validation_ranges (toy_zlib 13) (with_levels 0 8 1)));
        [reflexivity | simpl; lia].
    + apply (proj1 (validation_ranges (toy_zlib 13) (with_levels 9 15 9)));
        [reflexivity | simpl; lia].
  - repeat split; intro H;
      apply (proj1 (validation_ranges (toy_zlib 13) _)) in H;
      solve [reflexivity | simpl in H; lia].
  - apply (proj2 (validation_ranges (toy_zlib 13) (with_levels 6 16 8))).
    unfold in_ranges. simpl. lia.
Defined.

(** ** Theorems: runs without context takeover *)

Section FullFlush.

Context {zlib : Zlib}.
Variable s0 : z_state.
Hypothesis Hreset : full_flush_resets s0.

Lemma full_flush_step :
  forall s line,
    fresh_between s0 s -> bound_fits s0 line ->
    match process_line Z_FULL_FLUSH s line with
    | Continue s' =>
        fresh_between s0 s'
        /\ exists lr,
            test_result.line_results (r_of s')
            = test_result.line_results (r_of s) ++ [lr]
            /\ sized s0 line (line_result.compressed_size lr)
    | Fatal s' =>
        test_result.line_results (r_of s') = test_result.line_results (r_of s)
    end.
Proof.
  intros s line (Hst & Hcap) Hfit.
  destruct line as [|c l].
  - rewrite process_line_empty. split; [split; assumption|].
    eexists. split; [reflexivity | reflexivity].
  - assert (Hne : String c l <> EmptyString) by discriminate.
    rewrite (process_line_nonempty Z_FULL_FLUSH s _ Hne). cbv zeta.
    set (line := String c l) in *.
    set (est := to_size_t (deflateBound (zlib_state s) (size line))).
    set (b1 := pod_buffer.set_cursor (pod_buffer.resize (out_buf s) est) 0).
    assert (Hest : 0 <= est < 2 ^ 32).
    { unfold est. rewrite Hst. unfold bound_fits in Hfit.
      rewrite to_size_t_small; lia. }
    assert (Hcap1 : 0 <= pod_buffer.m_capacity b1 < 2 ^ 32).
    { unfold b1, pod_buffer.set_cursor, pod_buffer.resize.
      destruct (est <=? pod_buffer.m_capacity (out_buf s)); simpl; lia. }
    assert (Hav : pod_buffer.avail b1 = pod_buffer.m_capacity b1).
    { unfold pod_buffer.avail, size_sub. unfold b1 at 2.
      unfold pod_buffer.set_cursor. simpl pod_buffer.m_cursor.
      rewrite Z.sub_0_r. apply to_size_t_small. lia. }
    assert (Hoff : offered s line = pod_buffer.m_capacity b1).
    { unfold offered. fold est. fold b1. rewrite Hav.
      unfold to_uInt. apply Z.mod_small. lia. }
    destruct (left_after Z_FULL_FLUSH s line =? 0) eqn:E.
    + reflexivity.
    + apply Z.eqb_neq in E.
      assert (Hleft :
                left_after Z_FULL_FLUSH s line
                = to_uInt
                    (dr_avail_out
                       (deflate s0 Z_FULL_FLUSH line (to_uInt (size line))
                                (pod_buffer.m_capacity b1)))).
      { unfold left_after. rewrite Hoff, Hst. reflexivity. }
      split.
      * split; simpl.
        -- rewrite Hoff, Hst. apply Hreset. rewrite <- Hleft. exact E.
        -- exact Hcap1.
      * eexists. split; [reflexivity|].
        simpl line_result.compressed_size. unfold sized, line.
        exists (pod_buffer.m_capacity b1).
        split; [exact Hcap1|]. fold line. rewrite <- Hleft.
        split; [exact E|].
        unfold pod_buffer.cursor, pod_buffer.adv_cursor.
        simpl pod_buffer.m_cursor. rewrite Hav. reflexivity.
Qed.

(** The records of a loop: one per line, in order, up to the line that
    stopped the run if one did. *)
Lemma full_flush_loop :
  forall lines s,
    fresh_between s0 s -> Forall (bound_fits s0) lines ->
    exists recs,
      test_result.line_results (r_of (final (deflate_loop Z_FULL_FLUSH lines s)))
      = test_result.line_results (r_of s) ++ recs
      /\ forall i lr,
          nth_error recs i = Some lr ->
          exists line,
            nth_error lines i = Some line
            /\ sized s0 line (line_result.compressed_size lr).
Proof.
  induction lines as [|x lines IH]; intros s Hs Hfit.
  - exists []. rewrite app_nil_r. split; [reflexivity|].
    intros [|i] lr H; discriminate H.
  - inversion Hfit as [|? ? Hx Hrest]; subst.
    pose proof (full_flush_step s x Hs Hx) as Hstep. simpl.
    destruct (process_line Z_FULL_FLUSH s x) as [s'|s'].
    + destruct Hstep as (Hs' & lr & Hlr & Hsz).
      destruct (IH s' Hs' Hrest) as (recs & Hrecs & Hnth).
      exists (lr :: recs). split.
      * rewrite Hrecs, Hlr, <- app_assoc. reflexivity.
      * intros [|i] lr' H; simpl in H.
        -- inversion H; subst. exists x. split; [reflexivity | exact Hsz].
        -- exact (Hnth i lr' H).
    + exists []. rewrite app_nil_r. split; [exact Hstep|].
      intros [|i] lr H; discriminate H.
Qed.

Hypothesis Hroom : output_independent_of_room s0.

Lemma sized_unique :
  forall line c1 c2, sized s0 line c1 -> sized s0 line c2 -> c1 = c2.
Proof.
  intros [|c l] c1 c2 H1 H2; simpl in *; [congruence|].
  destruct H1 as (a1 & Ha1 & Hl1 & E1). destruct H2 as (a2 & Ha2 & Hl2 & E2).
  rewrite E1, E2.
  pose proof (Hroom (String c l) (to_uInt (size (String c l))) a1 a2 Ha1 Ha2
                    Hl1 Hl2) as Heq.
  unfold size_sub at 2 4. rewrite Heq. reflexivity.
Qed.

End FullFlush.


(** The small zlib instance meets the two conditions on [Z_FULL_FLUSH]. *)
Lemma toy_full_flush_resets :
  forall slack, @full_flush_resets (toy_zlib slack) [].
Proof. intros slack line ain aout _. reflexivity. Qed.

Lemma toy_output_independent_of_room :
  forall slack, @output_independent_of_room (toy_zlib slack) [].
Proof.
  intros slack line ain a1 a2 H1 H2. cbv zeta. simpl.
  unfold toy_need. simpl existsb. cbv iota.
  assert (Hsz : 0 <= size line) by (unfold size; lia).
  assert (Hleft :
            forall a, 0 <= a < 2 ^ 32 ->
                      to_uInt (a - Z.min (size line + 10) a) <> 0 ->
                      a - to_uInt (a - Z.min (size line + 10) a)
                      = size line + 10).
  { intros a Ha Hn.
    destruct (Z.min_spec (size line + 10) a) as [(Hlt & Hm) | (Hge & Hm)];
      rewrite Hm in *.
    - unfold to_uInt. rewrite Z.mod_small by lia. ring.
    - exfalso. apply Hn. rewrite Z.sub_diag. reflexivity. }
  intros L1 L2. rewrite (Hleft a1 H1 L1), (Hleft a2 H2 L2). reflexivity.
Qed.


(** With context takeover the same instance prices a repeated message
    lower than its first occurrence: its sizes do depend on the history. *)
Example takeover_sizes_depend_on_history :
  map line_result.compressed_size
      (appended test_result.fresh
         (@deflate_lines (toy_zlib 13) ["ab"; "c"; "ab"]%string
                         test_result.fresh))
  = [8; 7; 3]
  /\ map line_result.compressed_size
         (appended no_takeover
            (@deflate_lines (toy_zlib 13) ["ab"; "c"; "ab"]%string no_takeover))
     = [8; 7; 8].
Proof. split; vm_compute; reflexivity. Qed.

(** ** Theorems: fatal errors and the exit status *)

Lemma load_setting_keeps :
  forall arg r,
    test_result.error (test_result.load_setting arg r) = test_result.error r
    /\ test_result.line_results (test_result.load_setting arg r)
       = test_result.line_results r.
Proof.
  intros arg r. unfold test_result.load_setting.
  destruct (test_result.find "="%char arg); [|auto].
  repeat match goal with
         | |- context [if String.eqb ?a ?b then _ else _] =>
             destruct (String.eqb a b)
         end; destruct r; auto.
Qed.

Section ExitFacts.

Context {zlib : Zlib}.

Lemma load_args_keeps :
  forall args r r',
    load_args args r = Some r' ->
    test_result.error r' = test_result.error r
    /\ test_result.line_results r' = test_result.line_results r.
Proof.
  induction args as [|arg args IH]; intros r r' H; simpl in H.
  - inversion H; subst. auto.
  - destruct (String.eqb arg "--help" || String.eqb arg "-h"); [discriminate|].
    destruct (IH _ _ H) as (He & Hl).
    destruct (load_setting_keeps arg r) as (He' & Hl').
    rewrite He, Hl, He', Hl'. auto.
Qed.

Lemma process_line_continue :
  forall fl s line s',
    process_line fl s line = Continue s' ->
    exists lr, r_of s' = test_result.push_back lr (r_of s).
Proof.
  intros fl s line s' H. destruct line as [|c l].
  - rewrite process_line_empty in H. inversion H; subst. simpl.
    eexists. reflexivity.
  - assert (Hne : String c l <> EmptyString) by discriminate.
    rewrite (process_line_nonempty fl s _ Hne) in H. cbv zeta in H.
    destruct (left_after fl s (String c l) =? 0); [discriminate|].
    inversion H; subst. simpl. eexists. reflexivity.
Qed.

(** A loop that was not stopped has added one record per line and left
    the [error] flag alone. *)
Lemma deflate_loop_continue :
  forall fl lines s s',
    deflate_loop fl lines s = Continue s' ->
    test_result.error (r_of s') = test_result.error (r_of s)
    /\ List.length (test_result.line_results (r_of s'))
       = (List.length (test_result.line_results (r_of s))
          + List.length lines)%nat.
Proof.
  intros fl lines. induction lines as [|x lines IH]; intros s s' H; simpl in H.
  - inversion H; subst. split; [reflexivity | simpl; lia].
  - destruct (process_line fl s x) as [s1|s1] eqn:E; [|discriminate].
    destruct (process_line_continue fl s x s1 E) as (lr & Hr).
    destruct (IH s1 s' H) as (He & Hl). rewrite He, Hl, Hr.
    split; [reflexivity|].
    change (test_result.line_results (test_result.push_back lr (r_of s)))
      with (test_result.line_results (r_of s) ++ [lr]).
    rewrite length_app. simpl. lia.
Qed.

(** A loop none of whose compression steps exhausts the buffer is not
    stopped. *)
Lemma deflate_loop_not_exhausted :
  forall fl lines s,
    (forall pre x post s',
        lines = pre ++ x :: post ->
        deflate_loop fl pre s = Continue s' ->
        ~ exhausted fl s' x) ->
    exists s', deflate_loop fl lines s = Continue s'.
Proof.
  intros fl lines. induction lines as [|x lines IH]; intros s H.
  - exists s. reflexivity.
  - simpl.
    destruct (process_line_not_exhausted fl s x (H [] x lines s eq_refl eq_refl))
      as (s1 & lr & E & _).
    rewrite E. apply IH. intros pre y post s' Hsplit Hloop.
    apply (H (x :: pre) y post s').
    + rewrite Hsplit. reflexivity.
    + simpl. rewrite E. exact Hloop.
Qed.

Lemma deflate_lines_output :
  forall lines r p,
    In p (output (deflate_lines lines r)) -> exists s, p = test_result.Text s.
Proof.
  intros lines r p. unfold deflate_lines.
  destruct (test_result.check_validity r) as [[valid r'] msgs].
  assert (Hm : forall q, In q (map test_result.Text msgs) ->
                         exists s, q = test_result.Text s).
  { intros q Hq. apply in_map_iff in Hq. destruct Hq as (m & Hq & _).
    exists m. symmetry. exact Hq. }
  destruct valid; simpl negb; cbv iota; [|apply Hm].
  destruct (deflateInit2 _ _ _ _ _) as [ret zs].
  destruct (ret =? Z_OK); simpl negb; cbv iota.
  - destruct (deflate_loop _ _ _); simpl; [apply Hm|].
    intro H. apply in_app_or in H. destruct H as [H|[H|[]]];
      [apply Hm; exact H | eexists; symmetry; exact H].
  - simpl. intro H. apply in_app_or in H. destruct H as [H|[H|[]]];
      [apply Hm; exact H | eexists; symmetry; exact H].
Qed.

(** The exit status of [main] follows the [error] flag of the run, and
    the statistics are printed only when the flag is down. *)
Lemma main_exit :
  forall argv input r,
    load_args (tl argv) main_settings = Some r ->
    let t := deflate_test input r in
    (test_result.error (result t) = true ->
     fst (main argv input) = 1
     /\ forall st, ~ In (test_result.Stats st) (snd (main argv input)))
    /\ (test_result.error (result t) = false ->
        fst (main argv input) = 0
        /\ exists st, In (test_result.Stats st) (snd (main argv input))).
Proof.
  intros argv input r Hargs t. unfold main. rewrite Hargs. fold t.
  split; intro He; rewrite He.
  - split; [reflexivity|]. simpl. intros st H.
    apply in_app_or in H. destruct H as [H|[H|[]]]; [|discriminate H].
    destruct (deflate_lines_output _ _ _ H) as (m & Hm). discriminate Hm.
  - simpl. split; [reflexivity|].
    eexists. apply in_or_app. right. left. reflexivity.
Qed.

End ExitFacts.

(** C9: in a run that [main] starts, with settings in range and a context
    that [deflateInit2] allocated, a compression step that leaves no byte
    of the output buffer stops the run: [error] is up, the records are the
    ones of the lines before it, [main] exits with status 1 and prints no
    statistics.  When no step exhausts the buffer, [error] stays down,
    [main] prints the statistics and exits with status 0. *)
Theorem buffer_exhaustion_is_fatal :
  forall (zlib : Zlib) (argv : list string) (input : string)
         (r : test_result.t) (zs : z_state),
    load_args (tl argv) main_settings = Some r ->
    in_ranges r ->
    init_call r = (Z_OK, zs) ->
    let fl := if test_result.context_takeover r
              then Z_SYNC_FLUSH else Z_FULL_FLUSH in
    let t := deflate_test input r in
    (forall pre x post s,
        getlines input = pre ++ x :: post ->
        deflate_loop fl pre (first_session r zs Z_OK) = Continue s ->
        exhausted fl s x ->
        test_result.error (result t) = true
        /\ test_result.line_results (result t)
           = test_result.line_results (r_of s)
        /\ List.length (test_result.line_results (result t)) = List.length pre
        /\ fst (main argv input) = 1
        /\ forall st, ~ In (test_result.Stats st) (snd (main argv input)))
    /\ ((forall pre x post s,
            getlines input = pre ++ x :: post ->
            deflate_loop fl pre (first_session r zs Z_OK) = Continue s ->
            ~ exhausted fl s x) ->
        test_result.error (result t) = false
        /\ fst (main argv input) = 0
        /\ exists st, In (test_result.Stats st) (snd (main argv input))).
Proof.
  intros zlib argv input r zs Hargs Hin Hinit fl t.
  destruct (load_args_keeps _ _ _ Hargs) as (He & Hl).
  change (test_result.error main_settings) with false in He.
  change (test_result.line_results main_settings)
    with (@nil line_result.t) in Hl.
  assert (Ht : t = match deflate_loop fl (getlines input)
                           (first_session r zs Z_OK) with
                   | Continue s => mk_run (r_of s) (calls_of s) []
                   | Fatal s =>
                       mk_run (r_of s) (calls_of s)
                              [test_result.Text msg_memory]
                   end).
  { unfold t, deflate_test.
    rewrite (deflate_lines_started _ r He Hin). cbv zeta.
    rewrite Hinit. reflexivity. }
  destruct (main_exit argv input r Hargs) as (Hexit1 & Hexit0).
  fold t in Hexit1, Hexit0.
  split.
  - intros pre x post s Hsplit Hloop Hex.
    destruct (process_line_exhausted fl s x Hex) as (s' & Hfatal & Hr).
    assert (Hrun : deflate_loop fl (getlines input) (first_session r zs Z_OK)
                   = Fatal s').
    { rewrite Hsplit, deflate_loop_app, Hloop. simpl. rewrite Hfatal.
      reflexivity. }
    rewrite Hrun in Ht.
    assert (Herr : test_result.error (result t) = true).
    { rewrite Ht. simpl. rewrite Hr. reflexivity. }
    assert (Hrecs : test_result.line_results (result t)
                    = test_result.line_results (r_of s)).
    { rewrite Ht. simpl. rewrite Hr. reflexivity. }
    destruct (deflate_loop_continue fl pre _ s Hloop) as (_ & Hlen).
    simpl r_of in Hlen. rewrite Hl in Hlen. simpl in Hlen.
    destruct (Hexit1 Herr) as (Hone & Hnone).
    repeat split; try assumption. rewrite Hrecs. exact Hlen.
  - intro Hnone.
    destruct (deflate_loop_not_exhausted fl (getlines input)
                (first_session r zs Z_OK) Hnone) as (s' & Hrun).
    rewrite Hrun in Ht.
    destruct (deflate_loop_continue fl _ _ s' Hrun) as (Herr & _).
    simpl r_of in Herr. rewrite He in Herr.
    assert (Herr' : test_result.error (result t) = false).
    { rewrite Ht. exact Herr. }
    destruct (Hexit0 Herr') as (Hzero & Hstats).
    repeat split; assumption.
Qed.

Lemma buffer_exhaustion_is_fatal_witness :
  (test_result.error
     (result (@deflate_test (toy_zlib 10) input_exhaust main_settings)) = true
   /\ List.length
        (test_result.line_results
           (result (@deflate_test (toy_zlib 10) input_exhaust main_settings)))
      = 1%nat
   /\ fst (@main (toy_zlib 10) ["wspmcestats"%string] input_exhaust) = 1)
  /\ (test_result.error
        (result (@deflate_test (toy_zlib 13) input_three main_settings)) = false
      /\ fst (@main (toy_zlib 13) ["wspmcestats"%string] input_three) = 0).
Proof.
  assert (Hin : in_ranges main_settings) by (unfold in_ranges; simpl; lia).
  split.
  - assert (Hex : @exhausted (toy_zlib 10) Z_SYNC_FLUSH
                    (final (@deflate_loop (toy_zlib 10) Z_SYNC_FLUSH
                              [EmptyString]
                              (@first_session (toy_zlib 10) main_settings
                                              [] Z_OK)))
                    "hello"%string).
    { split; [discriminate | vm_compute; reflexivity]. }
    destruct (proj1 (buffer_exhaustion_is_fatal
                       (toy_zlib 10) ["wspmcestats"%string] input_exhaust
                       main_settings [] eq_refl Hin eq_refl)
                    [EmptyString] "hello"%string ["later"%string] _
                    eq_refl eq_refl Hex)
      as (He & _ & Hlen & Hexit & _).
    repeat split; assumption.
  - destruct (proj2 (buffer_exhaustion_is_fatal
                       (toy_zlib 13) ["wspmcestats"%string] input_three
                       main_settings [] eq_refl Hin eq_refl))
      as (He & Hexit & _).
    + intros pre x post s Hsplit Hloop (Hne & Hleft).
      destruct pre as [|p1 [|p2 [|p3 pre]]]; simpl in Hsplit;
        inversion Hsplit; subst; clear Hsplit.
      * inversion Hloop; subst. vm_compute in Hleft. discriminate Hleft.
      * apply Hne. reflexivity.
      * vm_compute in Hloop. inversion Hloop; subst.
        vm_compute in Hleft. discriminate Hleft.
      * destruct pre; discriminate.
    + split; assumption.
Defined.

(** ** Theorems: reading standard input *)

Lemma string_append_nil : forall s : string, (s ++ EmptyString)%string = s.
Proof. induction s as [|c s IH]; simpl; [reflexivity | rewrite IH; reflexivity]. Qed.

Lemma string_append_snoc :
  forall (s : string) (c : ascii) (t : string),
    ((s ++ String c EmptyString) ++ t)%string = (s ++ String c t)%string.
Proof.
  induction s as [|a s IH]; intros c t; simpl; [reflexivity|].
  rewrite IH. reflexivity.
Qed.

Lemma getlines_from_take_line :
  forall input line,
    input <> EmptyString ->
    getlines_from line input
    = (line ++ fst (take_line input))%string
        :: getlines_from EmptyString (snd (take_line input)).
Proof.
  induction input as [|c rest IH]; intros line Hne; [congruence|].
  simpl. destruct (Ascii.eqb c newline).
  - simpl. rewrite string_append_nil. reflexivity.
  - destruct rest as [|c' rest'].
    + simpl. destruct line; reflexivity.
    + rewrite IH by discriminate.
      destruct (take_line (String c' rest')) as [l r]. simpl.
      rewrite string_append_snoc. reflexivity.
Qed.

(** The lines the loop goes through are the ones successive calls of
    [std::getline] return, until the call that fails. *)
Lemma getlines_getline :
  forall input,
    getlines input
    = match getline input with
      | None => []
      | Some (line, rest) => line :: getlines rest
      end.
Proof.
  intros [|c rest]; [reflexivity|].
  unfold getlines. rewrite getlines_from_take_line by discriminate.
  unfold getline. destruct (take_line (String c rest)) as [l r]. reflexivity.
Qed.

Example getlines_examples :
  getlines input_three = ["hello"; ""; "hello"]%string
  /\ getlines input_exhaust = [""; "hello"; "later"]%string
  /\ getlines EmptyString = []
  /\ getlines (String newline EmptyString) = [EmptyString]
  /\ getlines ("a" ++ String newline EmptyString)%string = ["a"%string].
Proof. repeat split. Qed.

(** ** Theorems: key=value tokens *)

Lemma find_append :
  forall (c : ascii) (key val : string),
    test_result.find c key = None ->
    test_result.find c (key ++ String c val) = Some (String.length key).
Proof.
  intros c key val. induction key as [|a key IH]; simpl; intro H.
  - rewrite Ascii.eqb_refl. reflexivity.
  - destruct (Ascii.eqb a c); [discriminate|].
    destruct (test_result.find c key); [discriminate|].
    rewrite IH; reflexivity.
Qed.

Lemma substring_all : forall s : string, substring 0 (String.length s) s = s.
Proof. induction s as [|a s IH]; simpl; [reflexivity | rewrite IH; reflexivity]. Qed.

Lemma substring_key :
  forall key rest : string,
    substring 0 (String.length key) (key ++ rest) = key.
Proof.
  induction key as [|a key IH]; intro rest; simpl.
  - destruct rest; reflexivity.
  - rewrite IH. reflexivity.
Qed.

Lemma substring_val :
  forall (key : string) (c : ascii) (val : string),
    substring (S (String.length key))
              (String.length (key ++ String c val) - S (String.length key))
              (key ++ String c val) = val.
Proof.
  induction key as [|a key IH]; intros c val; simpl.
  - rewrite Nat.sub_0_r. apply substring_all.
  - apply IH.
Qed.

(** X3: a token [key=val] whose key holds no [=] is split at that [=];
    [load_setting] then updates the field of the first matching key among
    server, sending, context_takeover, speed_levels, window_bits and
    memory_level, and changes nothing for any other key. *)
Theorem load_setting_key_value :
  forall (key val : string) (r : test_result.t),
    test_result.find "="%char key = None ->
    test_result.load_setting (key ++ String "="%char val) r
    = if String.eqb key "server" then
        test_result.set_is_server (String.eqb val "true") r
      else if String.eqb key "sending" then
        test_result.set_sending (String.eqb val "true") r
      else if String.eqb key "context_takeover" then
        test_result.set_context_takeover (String.eqb val "true") r
      else if String.eqb key "speed_levels" then
        test_result.set_speed_level (test_result.atoi val) r
      else if String.eqb key "window_bits" then
        test_result.set_window_bits (test_result.atoi val) r
      else if String.eqb key "memory_level" then
        test_result.set_memory_level (test_result.atoi val) r
      else r.
Proof.
  intros key val r H. unfold test_result.load_setting.
  rewrite (find_append _ key val H), substring_key, substring_val.
  destruct (String.eqb val "true"); reflexivity.
Qed.

Lemma load_setting_key_value_witness :
  test_result.load_setting "window_bits=12" test_result.fresh
  = test_result.set_window_bits 12 test_result.fresh
  /\ test_result.load_setting "speed_level=3" test_result.fresh
     = test_result.fresh.
Proof.
  split.
  - exact (load_setting_key_value "window_bits" "12" test_result.fresh eq_refl).
  - exact (load_setting_key_value "speed_level" "3" test_result.fresh eq_refl).
Defined.

(** X4: the total ratio is weighted by size.  For payloads of 10 and 1000
    bytes compressed to 8 and 200 bytes, [calc_stats] leaves 208/1010,
    which is below the mean of the two per-message ratios. *)
Theorem total_ratio_is_size_weighted :
  let r := test_result.calc_stats (with_records two_records (Val 0%float)) in
  let mean :=
    PrimFloat.div
      (PrimFloat.add (PrimFloat.div (double_of_size_t 8) (double_of_size_t 10))
                     (PrimFloat.div (double_of_size_t 200)
                                    (double_of_size_t 1000)))
      2%float in
  test_result.total_ratio r
  = Val (PrimFloat.div (double_of_size_t 208) (double_of_size_t 1010))
  /\ mean = 0.5%float
  /\ PrimFloat.ltb
       (PrimFloat.div (double_of_size_t 208) (double_of_size_t 1010)) mean
     = true
  /\ test_result.total_ratio r <> Val mean.
Proof.
  cbv zeta. split; [vm_compute; reflexivity|].
  split; [vm_compute; reflexivity|]. split; [vm_compute; reflexivity|].
  intro H.
  apply (f_equal (fun m => match m with
                           | Val x => PrimFloat.ltb x 0.5%float
                           | Indet => false
                           end)) in H.
  vm_compute in H. discriminate H.
Qed.

(** ** Theorems: more on validation and the command line *)

Lemma check_validity_eq :
  forall r,
    test_result.check_validity r
    = (if speed_level_ok r && window_bits_ok r && memory_level_ok r
       then (negb (test_result.error r), r, [])
       else (false, test_result.set_error true r, range_messages r)).
Proof.
  intro r.
  unfold test_result.check_validity, range_messages, speed_level_ok,
    window_bits_ok, memory_level_ok.
  destruct r; simpl.
  repeat range_test;
    repeat match goal with
           | |- context [Z.leb ?a ?b] => destruct (Z.leb_spec a b); simpl
           end;
    try lia; reflexivity.
Qed.

Lemma in_ranges_ok :
  forall r,
    in_ranges r
    <-> speed_level_ok r && window_bits_ok r && memory_level_ok r = true.
Proof.
  intro r. unfold in_ranges, speed_level_ok, window_bits_ok, memory_level_ok.
  rewrite !andb_true_iff, !Z.leb_le. tauto.
Qed.

(** X5: [check_validity] runs all three range tests: it prints one message
    for every setting outside its range, in the order speed level, window
    bits, memory level, raises [error] when there is at least one, never
    lowers it, changes no other member, and returns [!error]. *)
Theorem check_validity_reports_all :
  forall r,
    let '(ok, r', msgs) := test_result.check_validity r in
    msgs = range_messages r
    /\ List.length msgs
       = ((if speed_level_ok r then 0 else 1)
          + (if window_bits_ok r then 0 else 1)
          + (if memory_level_ok r then 0 else 1))%nat
    /\ r' = (if test_result.error r || negb (speed_level_ok r)
                || negb (window_bits_ok r) || negb (memory_level_ok r)
             then test_result.set_error true r else r)
    /\ ok = negb (test_result.error r').
Proof.
  intro r. rewrite check_validity_eq. unfold range_messages.
  destruct (speed_level_ok r), (window_bits_ok r), (memory_level_ok r);
    simpl; repeat split;
    destruct r as [e]; destruct e; reflexivity.
Qed.

Section CommandLine.

Context {zlib : Zlib}.

Lemma load_args_none :
  forall args r,
    load_args args r = None
    <-> In "--help"%string args \/ In "-h"%string args.
Proof.
  induction args as [|arg args IH]; intro r; simpl.
  - split; [discriminate | intros [[]|[]]].
  - destruct (String.eqb_spec arg "--help") as [E1|N1]; simpl.
    + split; [intros _; left; left; exact E1 | reflexivity].
    + destruct (String.eqb_spec arg "-h") as [E2|N2]; simpl.
      * split; [intros _; right; left; exact E2 | reflexivity].
      * rewrite IH. split.
        -- intros [H|H]; [left | right]; right; exact H.
        -- intros [[H|H]|[H|H]]; try contradiction;
             [left | right]; exact H.
Qed.

Lemma main_with_settings :
  forall argv input r,
    load_args (tl argv) main_settings = Some r ->
    main argv input
    = (let t := deflate_test input r in
       if test_result.error (result t) then
         (1, output t ++ [test_result.Text msg_exit])
       else
         (0, output t
             ++ [test_result.Stats (test_result.calc_stats (result t))])).
Proof.
  intros argv input r H. unfold main. rewrite H. reflexivity.
Qed.

End CommandLine.

(** X6: [main] prints the help text and exits with status 0, without
    reading the input or running anything, exactly when one of the
    arguments after the program name is [--help] or [-h], wherever it
    stands among them. *)
Theorem help_ends_the_program :
  forall (zlib : Zlib) (argv : list string) (input : string),
    (In "--help"%string (tl argv) \/ In "-h"%string (tl argv))
    <-> main argv input = (0, [test_result.Help]).
Proof.
  intros zlib argv input. rewrite <- (load_args_none (tl argv) main_settings).
  unfold main. destruct (load_args (tl argv) main_settings) as [r|].
  - split; [discriminate|]. intro H. exfalso.
    destruct (test_result.error (result (deflate_test input r))).
    + discriminate H.
    + simpl in H. inversion H as [Hout].
      destruct (output (deflate_test input r)) as [|p [|q l]];
        simpl in Hout; discriminate Hout.
  - split; reflexivity.
Qed.

Lemma load_setting_token :
  forall (key val : string) (r : test_result.t),
    test_result.find "="%char key = None ->
    test_result.load_setting (token key val) r
    = if String.eqb key "server" then
        test_result.set_is_server (String.eqb val "true") r
      else if String.eqb key "sending" then
        test_result.set_sending (String.eqb val "true") r
      else if String.eqb key "context_takeover" then
        test_result.set_context_takeover (String.eqb val "true") r
      else if String.eqb key "speed_levels" then
        test_result.set_speed_level (test_result.atoi val) r
      else if String.eqb key "window_bits" then
        test_result.set_window_bits (test_result.atoi val) r
      else if String.eqb key "memory_level" then
        test_result.set_memory_level (test_result.atoi val) r
      else r.
Proof.
  intros key val r H. unfold test_result.load_setting, token.
  rewrite (find_append _ key val H), substring_key, substring_val.
  destruct (String.eqb val "true"); reflexivity.
Qed.

(** X7: of two tokens with the same key the later one wins: loading
    [key=v1] and then [key=v2] leaves the configuration that loading
    [key=v2] alone leaves. *)
Theorem load_setting_last_wins :
  forall (key v1 v2 : string) (r : test_result.t),
    test_result.find "="%char key = None ->
    test_result.load_setting (token key v2)
      (test_result.load_setting (token key v1) r)
    = test_result.load_setting (token key v2) r.
Proof.
  intros key v1 v2 r H.
  rewrite !(load_setting_token key _ _ H).
  key_cases key; destruct r; reflexivity.
Qed.

Lemma load_setting_last_wins_witness :
  test_result.load_setting "window_bits=9"
    (test_result.load_setting "window_bits=12" test_result.fresh)
  = test_result.load_setting "window_bits=9" test_result.fresh.
Proof.
  exact (load_setting_last_wins "window_bits" "12" "9" test_result.fresh
                                eq_refl).
Defined.

(** X8: tokens with different keys can be given in any order: loading
    [k1=v1] then [k2=v2] leaves the same configuration as loading [k2=v2]
    then [k1=v1]. *)
Theorem load_setting_commutes :
  forall (k1 v1 k2 v2 : string) (r : test_result.t),
    test_result.find "="%char k1 = None ->
    test_result.find "="%char k2 = None ->
    k1 <> k2 ->
    test_result.load_setting (token k2 v2)
      (test_result.load_setting (token k1 v1) r)
    = test_result.load_setting (token k1 v1)
        (test_result.load_setting (token k2 v2) r).
Proof.
  intros k1 v1 k2 v2 r H1 H2 Hne.
  rewrite !(load_setting_token k1 _ _ H1), !(load_setting_token k2 _ _ H2).
  key_cases k1; key_cases k2; subst;
    try congruence; destruct r; reflexivity.
Qed.

Lemma load_setting_commutes_witness :
  test_result.load_setting "server=false"
    (test_result.load_setting "memory_level=3" test_result.fresh)
  = test_result.load_setting "memory_level=3"
      (test_result.load_setting "server=false" test_result.fresh).
Proof.
  apply (load_setting_commutes "memory_level" "3" "server" "false"
                               test_result.fresh eq_refl eq_refl).
  discriminate.
Defined.

(** ** Theorems: more on whole runs *)

Lemma int_negate :
  forall wb, - 2 ^ 31 < wb <= 2 ^ 31 -> int_mul (-1) wb = - wb.
Proof.
  intros wb H. unfold int_mul, to_int.
  rewrite Z.mod_small by lia. lia.
Qed.

Lemma in_ranges_negated :
  forall r, in_ranges r ->
            int_mul (-1) (test_result.window_bits r)
            = - test_result.window_bits r.
Proof.
  intros r (_ & Hw & _). apply int_negate. lia.
Qed.

Section MoreRunFacts.

Context {zlib : Zlib}.

Lemma deflate_lines_rejected :
  forall lines r,
    ~ in_ranges r ->
    deflate_lines lines r
    = mk_run (test_result.set_error true r) []
             (map test_result.Text (range_messages r)).
Proof.
  intros lines r H. unfold deflate_lines. rewrite check_validity_eq.
  destruct (speed_level_ok r && window_bits_ok r && memory_level_ok r) eqn:E.
  - exfalso. apply H. apply in_ranges_ok. exact E.
  - reflexivity.
Qed.

Lemma range_messages_nonempty :
  forall r, ~ in_ranges r -> range_messages r <> [].
Proof.
  intros r H. unfold range_messages.
  destruct (speed_level_ok r) eqn:E1; [|discriminate].
  destruct (window_bits_ok r) eqn:E2; [|discriminate].
  destruct (memory_level_ok r) eqn:E3; [|discriminate].
  exfalso. apply H. apply in_ranges_ok. rewrite E1, E2, E3. reflexivity.
Qed.

(** What the loop leaves, line by line: the records it added are those of
    the first lines, in order; the [deflate] and [deflateBound] calls it
    made are those of the non-empty lines among the first [k]; [k] counts
    all the lines when the loop ended normally and the lines up to the one
    that exhausted the buffer otherwise. *)
Lemma deflate_loop_trace :
  forall fl lines s,
    exists (k : nat) (recs : list line_result.t),
      test_result.line_results (r_of (final (deflate_loop fl lines s)))
      = test_result.line_results (r_of s) ++ recs
      /\ map line_result.payload_size recs
         = map size (firstn (List.length recs) lines)
      /\ deflate_inputs (calls_of (final (deflate_loop fl lines s)))
         = deflate_inputs (calls_of s)
             ++ map (fun l => (fl, l, to_uInt (size l)))
                    (filter nonempty (firstn k lines))
      /\ bound_inputs (calls_of (final (deflate_loop fl lines s)))
         = bound_inputs (calls_of s)
             ++ map size (filter nonempty (firstn k lines))
      /\ match deflate_loop fl lines s with
         | Continue s' =>
             List.length recs = List.length lines
             /\ k = List.length lines
             /\ test_result.error (r_of s') = test_result.error (r_of s)
         | Fatal s' =>
             k = S (List.length recs)
             /\ (k <= List.length lines)%nat
             /\ test_result.error (r_of s') = true
         end.
Proof.
  intros fl lines. induction lines as [|x lines IH]; intro s.
  - exists 0%nat, []. simpl. rewrite !app_nil_r. repeat split; reflexivity.
  - simpl deflate_loop.
    destruct x as [|c l].
    + rewrite process_line_empty.
      match goal with
      | |- context [deflate_loop fl lines ?s1] =>
          destruct (IH s1) as (k & recs & Hr & Hp & Hd & Hb & Hm)
      end.
      simpl r_of in *. simpl calls_of in *.
      exists (S k), (empty_record (r_of s) :: recs).
      split; [rewrite Hr; simpl; rewrite <- app_assoc; reflexivity|].
      split; [simpl; rewrite Hp; reflexivity|].
      split; [exact Hd|]. split; [exact Hb|].
      destruct (deflate_loop fl lines _); simpl;
        destruct Hm as (H1 & H2 & H3); repeat split; try lia; assumption.
    + assert (Hne : String c l <> EmptyString) by discriminate.
      rewrite (process_line_nonempty fl s _ Hne). cbv zeta.
      destruct (left_after fl s (String c l) =? 0).
      * exists 1%nat, []. simpl. rewrite !app_nil_r.
        unfold deflate_inputs, bound_inputs. rewrite !flat_map_app. simpl.
        repeat split; lia.
      * match goal with
        | |- context [deflate_loop fl lines ?s1] =>
            destruct (IH s1) as (k & recs & Hr & Hp & Hd & Hb & Hm)
        end.
        simpl r_of in *. simpl calls_of in *.
        match type of Hr with
        | _ = test_result.line_results (test_result.push_back ?lr _) ++ _ =>
            exists (S k), (lr :: recs)
        end.
        split; [rewrite Hr; simpl; rewrite <- app_assoc; reflexivity|].
        split; [simpl; rewrite Hp; reflexivity|].
        split.
        { rewrite Hd. unfold deflate_inputs. rewrite flat_map_app. simpl.
          rewrite <- app_assoc. reflexivity. }
        split.
        { rewrite Hb. unfold bound_inputs. rewrite flat_map_app. simpl.
          rewrite <- app_assoc. reflexivity. }
        destruct (deflate_loop fl lines _); simpl;
          destruct Hm as (H1 & H2 & H3); repeat split; try lia; assumption.
Qed.

(** A run whose settings are in range and whose context was allocated is
    the loop. *)
Lemma deflate_lines_loop :
  forall lines r,
    test_result.error r = false -> in_ranges r ->
    fst (init_call r) = Z_OK ->
    let st := deflate_loop (flush_of r) lines
                (first_session r (snd (init_call r)) Z_OK) in
    result (deflate_lines lines r) = r_of (final st)
    /\ calls (deflate_lines lines r) = calls_of (final st).
Proof.
  intros lines r He Hin Hok st.
  rewrite (deflate_lines_started lines r He Hin). cbv zeta.
  rewrite Hok. simpl negb. cbv iota. apply run_of_loop.
Qed.

End MoreRunFacts.

(** X9: when a setting given on the command line is outside its range,
    [main] prints the message of every such setting and then the exit
    message, prints no statistics and exits with status 1; nothing is
    compressed. *)
Theorem main_rejects_out_of_range :
  forall (zlib : Zlib) (argv : list string) (input : string)
         (r : test_result.t),
    load_args (tl argv) main_settings = Some r ->
    ~ in_ranges r ->
    main argv input
    = (1, map test_result.Text (range_messages r)
          ++ [test_result.Text msg_exit])
    /\ range_messages r <> []
    /\ calls (deflate_test input r) = [].
Proof.
  intros zlib argv input r Hargs Hout.
  rewrite (main_with_settings argv input r Hargs). unfold deflate_test.
  rewrite (deflate_lines_rejected _ r Hout). simpl.
  split; [reflexivity|].
  split; [apply range_messages_nonempty; exact Hout | reflexivity].
Qed.

Lemma main_rejects_out_of_range_witness :
  @main (toy_zlib 13)
        ["wspmcestats"; "window_bits=7"; "memory_level=0"]%string input_three
  = (1, [test_result.Text test_result.msg_window_bits;
         test_result.Text test_result.msg_memory_level;
         test_result.Text msg_exit]).
Proof.
  apply (main_rejects_out_of_range
           (toy_zlib 13)
           ["wspmcestats"; "window_bits=7"; "memory_level=0"]%string
           input_three
           (test_result.set_memory_level 0
              (test_result.set_window_bits 7 main_settings))).
  - reflexivity.
  - unfold in_ranges. simpl. lia.
Defined.

(** X10: when [deflateInit2] does not return [Z_OK], the run stops at
    once: [error] is up, no record is added, [deflateInit2] (called with
    the speed level, the negated window bits and the memory level) is the
    only call made into zlib, and [main] prints the set-up message and the
    exit message and exits with status 1. *)
Theorem init_failure_is_fatal :
  forall (zlib : Zlib) (argv : list string) (input : string)
         (r : test_result.t),
    load_args (tl argv) main_settings = Some r ->
    in_ranges r ->
    fst (init_call r) <> Z_OK ->
    let t := deflate_test input r in
    test_result.error (result t) = true
    /\ test_result.line_results (result t) = []
    /\ calls t = [Call_deflateInit2 (test_result.speed_level r)
                                    (- test_result.window_bits r)
                                    (test_result.memory_level r)
                                    (fst (init_call r))]
    /\ main argv input
       = (1, [test_result.Text msg_setup; test_result.Text msg_exit]).
Proof.
  intros zlib argv input r Hargs Hin Hfail t.
  destruct (load_args_keeps _ _ _ Hargs) as (He & Hl).
  change (test_result.error main_settings) with false in He.
  change (test_result.line_results main_settings)
    with (@nil line_result.t) in Hl.
  assert (Ht : t = mk_run (test_result.set_error true r)
                          [Call_deflateInit2 (test_result.speed_level r)
                                             (- test_result.window_bits r)
                                             (test_result.memory_level r)
                                             (fst (init_call r))]
                          [test_result.Text msg_setup]).
  { unfold t, deflate_test. rewrite (deflate_lines_started _ r He Hin).
    cbv zeta. apply Z.eqb_neq in Hfail. rewrite Hfail. simpl.
    rewrite (in_ranges_negated r Hin). reflexivity. }
  rewrite (main_with_settings argv input r Hargs). fold t. rewrite Ht. simpl.
  repeat split. exact Hl.
Qed.

Lemma init_failure_is_fatal_witness :
  @main failing_zlib ["wspmcestats"%string] input_three
  = (1, [test_result.Text msg_setup; test_result.Text msg_exit])
  /\ calls (@deflate_test failing_zlib input_three main_settings)
     = [Call_deflateInit2 6 (-15) 8 Z_MEM_ERROR].
Proof.
  assert (Hin : in_ranges main_settings) by (unfold in_ranges; simpl; lia).
  destruct (init_failure_is_fatal failing_zlib ["wspmcestats"%string]
              input_three main_settings eq_refl Hin)
    as (_ & _ & Hc & Hm).
  - discriminate.
  - split; [exact Hm | exact Hc].
Defined.
Section RunShape.

Context {zlib : Zlib}.

Lemma appended_nil :
  forall r t,
    test_result.line_results (result t) = test_result.line_results r ->
    appended r t = [].
Proof.
  intros r t H. apply appended_app. rewrite app_nil_r. exact H.
Qed.

(** The three ways a run goes: stopped before zlib is called, stopped by
    [deflateInit2], or through the loop. *)
Lemma deflate_lines_cases :
  forall lines r,
    (deflate_lines lines r
     = mk_run (test_result.set_error true r) []
              (output (deflate_lines lines r))
     /\ (test_result.error r = true \/ ~ in_ranges r))
    \/ (test_result.error r = false /\ in_ranges r
        /\ fst (init_call r) <> Z_OK
        /\ result (deflate_lines lines r) = test_result.set_error true r)
    \/ (test_result.error r = false /\ in_ranges r
        /\ fst (init_call r) = Z_OK
        /\ result (deflate_lines lines r)
           = r_of (final (deflate_loop (flush_of r) lines
                            (first_session r (snd (init_call r)) Z_OK)))
        /\ calls (deflate_lines lines r)
           = calls_of (final (deflate_loop (flush_of r) lines
                                (first_session r (snd (init_call r)) Z_OK)))).
Proof.
  intros lines r.
  destruct (test_result.error r) eqn:He.
  - left. destruct (deflate_lines_stopped lines r (or_introl He)) as (m & H).
    rewrite H. simpl. split; [reflexivity | left; reflexivity].
  - destruct (in_ranges_dec r) as [Hin|Hout].
    + right. destruct (Z.eq_dec (fst (init_call r)) Z_OK) as [Hok|Hfail].
      * right. destruct (deflate_lines_loop lines r He Hin Hok) as (H1 & H2).
        split; [reflexivity|]. split; [exact Hin|]. split; [exact Hok|].
        split; [exact H1 | exact H2].
      * left. split; [reflexivity|]. split; [exact Hin|].
        split; [exact Hfail|].
        rewrite (deflate_lines_started lines r He Hin). cbv zeta.
        apply Z.eqb_neq in Hfail. rewrite Hfail. reflexivity.
    + left. destruct (deflate_lines_stopped lines r (or_intror Hout)) as (m & H).
      rewrite H. simpl. split; [reflexivity | right; exact Hout].
Qed.

End RunShape.

(** X11: the records a run adds are those of the first lines of the
    input, one per line and in order: the payload size of the i-th record
    is the length of the i-th line.  In a run started with [error] down,
    [error] is still down at the end exactly when the settings are in
    range, [deflateInit2] returned [Z_OK] and every line got its record. *)
Theorem records_follow_lines :
  forall (zlib : Zlib) (lines : list string) (r : test_result.t),
    let t := deflate_lines lines r in
    let recs := appended r t in
    map line_result.payload_size recs
    = map size (firstn (List.length recs) lines)
    /\ (List.length recs <= List.length lines)%nat
    /\ (test_result.error r = false ->
        (test_result.error (result t) = false
         <-> in_ranges r /\ fst (init_call r) = Z_OK
             /\ List.length recs = List.length lines)).
Proof.
  intros zlib lines r t recs. unfold recs, t.
  destruct (deflate_lines_cases lines r)
    as [(Hrun & Hstop) | [(He & Hin & Hfail & Hres) | (He & Hin & Hok & Hres & _)]].
  - rewrite (appended_nil r _); [|rewrite Hrun; reflexivity].
    split; [reflexivity|]. split; [simpl; lia|].
    intro He. rewrite Hrun. simpl. split; [discriminate|].
    intros (Hin & _). destruct Hstop; congruence.
  - rewrite (appended_nil r _); [|rewrite Hres; reflexivity].
    split; [reflexivity|]. split; [simpl; lia|].
    intros _. rewrite Hres. simpl. split; [discriminate|].
    intros (_ & Hok & _). contradiction.
  - destruct (deflate_loop_trace (flush_of r) lines
                (first_session r (snd (init_call r)) Z_OK))
      as (k & rs & Hr & Hp & _ & _ & Hm).
    rewrite (appended_app r _ rs); [|rewrite Hres; exact Hr].
    rewrite Hres.
    destruct (deflate_loop _ _ _) as [s'|s']; simpl in *;
      destruct Hm as (H1 & H2 & H3).
    + split; [exact Hp|]. split; [lia|]. intros _. rewrite H3, He. tauto.
    + split; [exact Hp|]. split; [lia|]. intros _. rewrite H3.
      split; [discriminate|]. intros (_ & _ & Hlen). lia.
Qed.

(** X12: a run changes nothing in the [test_result] it was given but the
    [error] flag and the list of records: the six settings are returned
    as they came, and [deflate_test] writes none of the aggregate totals
    and memory figures. *)
Theorem run_keeps_settings :
  forall (zlib : Zlib) (lines : list string) (r : test_result.t),
    settings_of (result (deflate_lines lines r)) = settings_of r
    /\ stats_of (result (deflate_lines lines r)) = stats_of r.
Proof.
  intros zlib lines r.
  destruct (deflate_lines_cases lines r)
    as [(Hrun & _) | [(_ & _ & _ & Hres) | (_ & _ & _ & Hres & _)]].
  - rewrite Hrun. split; reflexivity.
  - rewrite Hres. split; reflexivity.
  - rewrite Hres.
    apply (deflate_loop_invariant
             (fun s => settings_of (r_of s) = settings_of r
                       /\ stats_of (r_of s) = stats_of r)).
    + intros s line (H1 & H2).
      destruct (process_line_result (flush_of r) s line)
        as [(lr & Hr & _) | Hr]; rewrite Hr; split; assumption.
    + split; reflexivity.
Qed.

(** X13: the calls a run makes into zlib once [deflateInit2] has
    returned [Z_OK].  The first call is [deflateInit2] with the speed
    level, the negated window bits and the memory level.  Then come, for
    each non-empty line that was processed and for no other, one
    [deflateBound] on the length of the line and one [deflate] on the line
    with [avail_in] the length modulo 2^32 and with [Z_SYNC_FLUSH] when
    context takeover is on, [Z_FULL_FLUSH] when it is off.  The lines
    processed are those that got a record, and the one that exhausted the
    buffer if the run was stopped. *)
Theorem calls_follow_lines :
  forall (zlib : Zlib) (lines : list string) (r : test_result.t),
    test_result.error r = false ->
    in_ranges r ->
    fst (init_call r) = Z_OK ->
    let t := deflate_lines lines r in
    let k := (List.length (appended r t)
              + (if test_result.error (result t) then 1 else 0))%nat in
    let processed := filter nonempty (firstn k lines) in
    hd_error (calls t)
    = Some (Call_deflateInit2 (test_result.speed_level r)
                              (- test_result.window_bits r)
                              (test_result.memory_level r) Z_OK)
    /\ deflate_inputs (calls t)
       = map (fun l => (if test_result.context_takeover r
                        then Z_SYNC_FLUSH else Z_FULL_FLUSH,
                        l, to_uInt (size l))) processed
    /\ bound_inputs (calls t) = map size processed
    /\ List.length (calls t) = S (2 * List.length processed).
Proof.
  intros zlib lines r He Hin Hok t k processed.
  destruct (deflate_lines_loop lines r He Hin Hok) as (Hres & Hcalls).
  cbv zeta in Hres, Hcalls.
  destruct (deflate_loop_trace (flush_of r) lines
              (first_session r (snd (init_call r)) Z_OK))
    as (k' & rs & Hr & _ & Hd & Hb & Hm).
  destruct (deflate_loop_calls (flush_of r) lines
              (first_session r (snd (init_call r)) Z_OK))
    as (extra & Hx & Hf).
  assert (Happ : appended r t = rs).
  { apply appended_app. unfold t. rewrite Hres. exact Hr. }
  assert (Hk : k = k').
  { unfold k. rewrite Happ. unfold t. rewrite Hres.
    destruct (deflate_loop _ _ _) as [s'|s']; simpl in *;
      destruct Hm as (H1 & H2 & H3); rewrite H3; [rewrite He|]; lia. }
  unfold processed. rewrite Hk. unfold t. rewrite Hcalls.
  split.
  { rewrite Hx. simpl. rewrite (in_ranges_negated r Hin). reflexivity. }
  split; [exact Hd|]. split; [exact Hb|].
  rewrite Hx. simpl. f_equal.
  assert (Hlen : forall l,
             Forall (fun c => is_deflate c = true) l ->
             List.length l
             = (List.length (deflate_inputs l) + List.length (bound_inputs l))%nat).
  { induction l as [|c l IH]; intro H; [reflexivity|].
    inversion H as [|? ? Hc Hl]; subst. specialize (IH Hl).
    destruct c; simpl in *; try discriminate; lia. }
  rewrite (Hlen extra Hf).
  rewrite Hx in Hd, Hb. simpl in Hd, Hb.
  change (deflate_inputs (?a :: ?l)) with (deflate_inputs l) in Hd.
  rewrite Hd, Hb, !length_map. lia.
Qed.

Lemma calls_follow_lines_witness :
  (deflate_inputs
     (calls (@deflate_lines (toy_zlib 13) ["hello"; ""; "hello"]%string
                            test_result.fresh))
   = [(Z_SYNC_FLUSH, "hello"%string, 5); (Z_SYNC_FLUSH, "hello"%string, 5)]
   /\ bound_inputs
        (calls (@deflate_lines (toy_zlib 13) ["hello"; ""; "hello"]%string
                               test_result.fresh))
      = [5; 5])
  /\ deflate_inputs
       (calls (@deflate_lines (toy_zlib 10) [""; "hello"; "later"]%string
                              no_takeover))
     = [(Z_FULL_FLUSH, "hello"%string, 5)].
Proof.
  assert (H1 : in_ranges test_result.fresh) by (unfold in_ranges; simpl; lia).
  assert (H2 : in_ranges no_takeover) by (unfold in_ranges; simpl; lia).
  split.
  - destruct (calls_follow_lines (toy_zlib 13) ["hello"; ""; "hello"]%string
                                 test_result.fresh eq_refl H1 eq_refl)
      as (_ & Hd & Hb & _).
    split; [exact Hd | exact Hb].
  - destruct (calls_follow_lines (toy_zlib 10) [""; "hello"; "later"]%string
                                 no_takeover eq_refl H2 eq_refl)
      as (_ & Hd & _).
    exact Hd.
Defined.

Section EmptyLines.

Context {zlib : Zlib}.

Lemma deflate_loop_empty_lines :
  forall fl n s,
    deflate_loop fl (repeat EmptyString n) s
    = Continue
        (mk_session (zlib_state s) (out_buf s)
           (fold_left (fun r lr => test_result.push_back lr r)
                      (repeat (empty_record (r_of s)) n) (r_of s))
           (calls_of s)).
Proof.
  intros fl n. induction n as [|n IH]; intro s.
  - destruct s; reflexivity.
  - simpl repeat. cbn [deflate_loop]. rewrite process_line_empty, IH.
    reflexivity.
Qed.

Lemma push_back_all :
  forall recs r,
    test_result.line_results
      (fold_left (fun r lr => test_result.push_back lr r) recs r)
    = test_result.line_results r ++ recs
    /\ test_result.error
         (fold_left (fun r lr => test_result.push_back lr r) recs r)
       = test_result.error r.
Proof.
  induction recs as [|lr recs IH]; intro r; simpl.
  - rewrite app_nil_r. auto.
  - destruct (IH (test_result.push_back lr r)) as (H1 & H2).
    rewrite H1, H2. simpl. rewrite <- app_assoc. auto.
Qed.

End EmptyLines.

(** X14: a run over empty lines only never calls [deflate] or
    [deflateBound] and cannot be stopped: once [deflateInit2] has returned
    [Z_OK], it adds one record per line, each with payload size 0,
    compressed size 2 and ratio 2.0, and leaves [error] down. *)
Theorem empty_lines_run :
  forall (zlib : Zlib) (n : nat) (r : test_result.t),
    test_result.error r = false ->
    in_ranges r ->
    fst (init_call r) = Z_OK ->
    let t := deflate_lines (repeat EmptyString n) r in
    test_result.error (result t) = false
    /\ appended r t = repeat (empty_record r) n
    /\ calls t = [Call_deflateInit2 (test_result.speed_level r)
                                    (- test_result.window_bits r)
                                    (test_result.memory_level r) Z_OK].
Proof.
  intros zlib n r He Hin Hok t.
  destruct (deflate_lines_loop (repeat EmptyString n) r He Hin Hok)
    as (Hres & Hcalls).
  cbv zeta in Hres, Hcalls. rewrite deflate_loop_empty_lines in Hres, Hcalls.
  simpl in Hres, Hcalls.
  destruct (push_back_all (repeat (empty_record r) n) r) as (H1 & H2).
  unfold t. split; [rewrite Hres, H2; exact He|].
  split.
  - apply appended_app. rewrite Hres. exact H1.
  - rewrite Hcalls, (in_ranges_negated r Hin). reflexivity.
Qed.

Lemma empty_lines_run_witness :
  test_result.error
    (result (@deflate_lines (toy_zlib 0) (repeat EmptyString 3)
                            test_result.fresh)) = false
  /\ map line_result.compressed_size
         (appended test_result.fresh
            (@deflate_lines (toy_zlib 0) (repeat EmptyString 3)
                            test_result.fresh))
     = [2; 2; 2].
Proof.
  assert (Hin : in_ranges test_result.fresh) by (unfold in_ranges; simpl; lia).
  destruct (empty_lines_run (toy_zlib 0) 3 test_result.fresh eq_refl Hin
                            eq_refl) as (He & Ha & _).
  split; [exact He | rewrite Ha; reflexivity].
Defined.

(** ** Theorems: more on the aggregate statistics *)

Lemma set_totals_self :
  forall r,
    test_result.set_totals
      (test_result.total_payload r) (test_result.total_frame_overhead r)
      (test_result.total_frame_overhead_compressed r)
      (test_result.total_compressed_size r) (test_result.total_ratio r)
      (test_result.total_elapsed_seconds r) r = r.
Proof. intros []; reflexivity. Qed.

(** The loop of [calc_stats] in one step. *)
Lemma fold_accumulate_eq :
  forall l r,
    fold_left test_result.accumulate l r
    = test_result.set_totals
        (fold_left (mem_lift2 size_add)
                   (map (fun lr => Val (line_result.payload_size lr)) l)
                   (test_result.total_payload r))
        (fold_left (mem_lift2 size_add)
                   (map (fun lr => Val (line_result.frame_overhead lr)) l)
                   (test_result.total_frame_overhead r))
        (fold_left (mem_lift2 size_add)
                   (map line_result.frame_overhead_compressed l)
                   (test_result.total_frame_overhead_compressed r))
        (fold_left (mem_lift2 size_add)
                   (map (fun lr => Val (line_result.compressed_size lr)) l)
                   (test_result.total_compressed_size r))
        (test_result.total_ratio r)
        (fold_left (mem_lift2 PrimFloat.add)
                   (map line_result.elapsed_seconds l)
                   (test_result.total_elapsed_seconds r))
        r.
Proof.
  induction l as [|lr l IH]; intro r; simpl.
  - symmetry. apply set_totals_self.
  - rewrite IH. destruct r; reflexivity.
Qed.

(** [calc_stats] as a function of the records, the settings and the
    previous [total_elapsed_seconds]. *)
Lemma calc_stats_eq :
  forall r,
    let l := test_result.line_results r in
    let wb := test_result.window_bits r in
    let ml := test_result.memory_level r in
    let p := fold_left (mem_lift2 size_add)
               (map (fun lr => Val (line_result.payload_size lr)) l) (Val 0) in
    let cs := fold_left (mem_lift2 size_add)
                (map (fun lr => Val (line_result.compressed_size lr)) l)
                (Val 0) in
    test_result.calc_stats r
    = test_result.mk
        (test_result.error r) (test_result.is_server r)
        (test_result.sending r) (test_result.context_takeover r)
        (test_result.speed_level r) wb ml l
        p
        (fold_left (mem_lift2 size_add)
           (map (fun lr => Val (line_result.frame_overhead lr)) l) (Val 0))
        (fold_left (mem_lift2 size_add)
           (map line_result.frame_overhead_compressed l) (Val 0))
        cs
        (mem_lift2 PrimFloat.div (test_result.mem_double_of_size_t cs)
                   (test_result.mem_double_of_size_t p))
        (fold_left (mem_lift2 PrimFloat.add)
           (map line_result.elapsed_seconds l)
           (test_result.total_elapsed_seconds r))
        (if test_result.sending r then
           Val (to_size_t (int_add (int_shl 1 (int_add wb 2))
                                   (int_shl 1 (int_add ml 9))))
         else
           Val (size_add (to_size_t (int_shl 1 wb))
                         (to_size_t (to_size_t (int_mul 1440 2) * sizeof_int))))
        (if test_result.sending r then
           Val (to_size_t (int_add (int_shl 1 wb) (int_mul (int_mul 1440 2) 4)))
         else Val 0)
        (if test_result.sending r then
           Val (to_size_t (int_add (int_shl 1 wb) (int_mul (int_mul 1440 2) 8)))
         else Val 0).
Proof.
  intro r. cbv zeta. unfold test_result.calc_stats.
  rewrite fold_accumulate_eq.
  destruct r as [e srv snd ct sl wb ml l tp tfo tfoc tcs tr tel mu m32 m64].
  simpl. destruct snd; reflexivity.
Qed.

(** X15: calling [calc_stats] again changes nothing but
    [total_elapsed_seconds]: the settings, the records, the four size
    totals, the ratio and the three memory figures of the second call are
    those of the first. *)
Theorem calc_stats_again :
  forall r,
    test_result.calc_stats (test_result.calc_stats r)
    = set_total_elapsed_seconds
        (test_result.total_elapsed_seconds
           (test_result.calc_stats (test_result.calc_stats r)))
        (test_result.calc_stats r).
Proof.
  intro r.
  rewrite (calc_stats_eq (test_result.calc_stats r)). cbv zeta.
  rewrite (calc_stats_eq r). cbv zeta.
  destruct r as [e srv snd ct sl wb ml l tp tfo tfoc tcs tr tel mu m32 m64].
  reflexivity.
Qed.
(** X16: with no record at all, [calc_stats] sets the four size totals
    to 0 and the total ratio to 0.0/0.0, which is not a number;
    [total_elapsed_seconds] keeps the value it had. *)
Theorem calc_stats_no_records :
  forall r,
    test_result.line_results r = [] ->
    let r' := test_result.calc_stats r in
    test_result.total_payload r' = Val 0
    /\ test_result.total_frame_overhead r' = Val 0
    /\ test_result.total_frame_overhead_compressed r' = Val 0
    /\ test_result.total_compressed_size r' = Val 0
    /\ test_result.total_ratio r' = Val PrimFloat.nan
    /\ test_result.total_elapsed_seconds r'
       = test_result.total_elapsed_seconds r.
Proof.
  intros r H r'. unfold r'. rewrite (calc_stats_eq r). cbv zeta.
  rewrite H. simpl. repeat split.
Qed.

Lemma calc_stats_no_records_witness :
  test_result.total_ratio
    (test_result.calc_stats
       (result (@deflate_test (toy_zlib 13) EmptyString main_settings)))
  = Val PrimFloat.nan.
Proof.
  apply (calc_stats_no_records
           (result (@deflate_test (toy_zlib 13) EmptyString main_settings))).
  reflexivity.
Defined.

(** X17: the three memory figures that [calc_stats] sets depend on the
    direction, the window bits and the memory level only: two
    [test_result]s that agree on these get the same figures, whatever
    their records and other members. *)
Theorem memory_figures_from_settings :
  forall r1 r2,
    test_result.sending r1 = test_result.sending r2 ->
    test_result.window_bits r1 = test_result.window_bits r2 ->
    test_result.memory_level r1 = test_result.memory_level r2 ->
    test_result.mem_usage (test_result.calc_stats r1)
    = test_result.mem_usage (test_result.calc_stats r2)
    /\ test_result.mem_usage_inflate_32 (test_result.calc_stats r1)
       = test_result.mem_usage_inflate_32 (test_result.calc_stats r2)
    /\ test_result.mem_usage_inflate_64 (test_result.calc_stats r1)
       = test_result.mem_usage_inflate_64 (test_result.calc_stats r2).
Proof.
  intros r1 r2 Hs Hw Hm.
  pose proof (calc_stats_mem_stats r1) as H1.
  pose proof (calc_stats_mem_stats r2) as H2. cbv zeta in H1, H2.
  rewrite Hs, Hw, Hm in H1. rewrite <- H2 in H1.
  inversion H1 as [[E1 E2 E3]]. rewrite E1, E2, E3. repeat split.
Qed.

Lemma memory_figures_from_settings_witness :
  test_result.mem_usage
    (test_result.calc_stats (with_records two_records Indet))
  = test_result.mem_usage
      (test_result.calc_stats (test_result.set_is_server false test_result.fresh)).
Proof.
  apply (memory_figures_from_settings
           (with_records two_records Indet)
           (test_result.set_is_server false test_result.fresh));
    reflexivity.
Defined.

(** X18: the frame overhead never decreases when the payload grows, and
    it always lies between 2 and 12 bytes. *)
Theorem frame_overhead_monotone :
  forall (masked : bool) (p q : Z),
    p <= q ->
    frame_overhead masked p <= frame_overhead masked q
    /\ 2 <= frame_overhead masked p <= 12.
Proof.
  intros masked p q H. unfold frame_overhead.
  destruct masked;
    destruct (Z.leb_spec p 125); destruct (Z.leb_spec p 65535);
    destruct (Z.leb_spec q 125); destruct (Z.leb_spec q 65535);
    try lia; vm_compute; repeat split; discriminate.
Qed.

Lemma frame_overhead_monotone_witness :
  frame_overhead true 125 <= frame_overhead true 126
  /\ 2 <= frame_overhead true 125 <= 12.
Proof. apply (frame_overhead_monotone true 125 126). lia. Defined.

Lemma fold_size_add :
  forall (f : line_result.t -> Z) (recs : list line_result.t) (a : Z),
    0 <= a < 2 ^ 64 ->
    fold_left (mem_lift2 size_add) (map (fun lr => Val (f lr)) recs) (Val a)
    = Val (to_size_t (a + sum (map f recs))).
Proof.
  intros f recs. induction recs as [|lr recs IH]; intros a Ha; simpl.
  - rewrite Z.add_0_r, to_size_t_small by exact Ha. reflexivity.
  - rewrite IH by apply to_size_t_range.
    unfold size_add, to_size_t. rewrite Zplus_mod_idemp_l.
    rewrite Z.add_assoc. reflexivity.
Qed.

(** X19: for a run that starts without records and ends with [error]
    down, [calc_stats] makes [total_payload] the sum of the lengths of the
    input lines and [total_frame_overhead] the sum of their frame
    overheads (computed with the flag [!is_server]), both modulo 2^64. *)
Theorem totals_are_input_sums :
  forall (zlib : Zlib) (lines : list string) (r : test_result.t),
    test_result.line_results r = [] ->
    test_result.error (result (deflate_lines lines r)) = false ->
    let st := test_result.calc_stats (result (deflate_lines lines r)) in
    test_result.total_payload st = Val (to_size_t (sum (map size lines)))
    /\ test_result.total_frame_overhead st
       = Val (to_size_t
                (sum (map (fun l =>
                             frame_overhead (negb (test_result.is_server r))
                                            (size l)) lines))).
Proof.
  intros zlib lines r Hnil Herr st.
  assert (Hrecs :
            exists recs,
              test_result.line_results (result (deflate_lines lines r)) = recs
              /\ map line_result.payload_size recs = map size lines
              /\ Forall (overheads_with (negb (test_result.is_server r))) recs).
  { destruct (deflate_lines_cases lines r)
      as [(Hrun & _) | [(_ & _ & _ & Hres) | (He & Hin & Hok & Hres & _)]].
    - rewrite Hrun in Herr. discriminate Herr.
    - rewrite Hres in Herr. discriminate Herr.
    - rewrite Hres in Herr |- *.
      destruct (deflate_loop_trace (flush_of r) lines
                  (first_session r (snd (init_call r)) Z_OK))
        as (k & rs & Hr & Hp & _ & _ & Hm).
      destruct (deflate_loop_records (flush_of r) lines
                  (first_session r (snd (init_call r)) Z_OK))
        as (_ & rs' & Hr' & Hf).
      simpl r_of in Hr, Hr', Hf. rewrite Hnil in Hr, Hr'. simpl in Hr, Hr'.
      assert (E : rs' = rs) by congruence. rewrite E in Hf.
      exists rs. split; [exact Hr|]. split; [|exact Hf].
      destruct (deflate_loop _ _ _) as [s'|s']; simpl in *;
        destruct Hm as (H1 & H2 & H3); [|congruence].
      rewrite H1, firstn_all in Hp. exact Hp. }
  destruct Hrecs as (recs & Hl & Hp & Hf).
  unfold st. rewrite (calc_stats_eq _). cbv zeta. simpl. rewrite Hl.
  rewrite (fold_size_add line_result.payload_size) by lia.
  rewrite (fold_size_add line_result.frame_overhead) by lia.
  rewrite Hp. simpl. split; [reflexivity|]. do 2 f_equal.
  clear Hl st Herr. revert lines Hp.
  induction Hf as [|lr recs (Hfo & _) _ IH]; intros [|x lines] Hp;
    simpl in Hp; try discriminate Hp; [reflexivity|].
  inversion Hp as [[Hx Hrest]]. simpl. rewrite Hfo, Hx, (IH lines Hrest).
  reflexivity.
Qed.

Lemma totals_are_input_sums_witness :
  test_result.total_payload
    (test_result.calc_stats
       (result (@deflate_lines (toy_zlib 13) ["hello"; ""; "hello"]%string
                               test_result.fresh)))
  = Val 10
  /\ test_result.total_frame_overhead
       (test_result.calc_stats
          (result (@deflate_lines (toy_zlib 13) ["hello"; ""; "hello"]%string
                                  test_result.fresh)))
     = Val 6.
Proof.
  exact (totals_are_input_sums (toy_zlib 13) ["hello"; ""; "hello"]%string
                               test_result.fresh eq_refl eq_refl).
Defined.

(** ** Theorems: more on reading standard input *)

Lemma string_append_assoc :
  forall a b c : string, ((a ++ b) ++ c)%string = (a ++ (b ++ c))%string.
Proof.
  induction a as [|x a IH]; intros b c; simpl; [reflexivity|].
  rewrite IH. reflexivity.
Qed.

Lemma getlines_from_line :
  forall (line acc rest : string),
    newline_free line ->
    getlines_from acc (line ++ String newline rest)
    = (acc ++ line)%string :: getlines_from EmptyString rest.
Proof.
  induction line as [|c line IH]; intros acc rest H; simpl.
  - rewrite string_append_nil. reflexivity.
  - destruct H as (Hc & Hl).
    destruct (Ascii.eqb_spec c newline) as [E|_]; [contradiction|].
    rewrite (IH _ _ Hl), string_append_snoc. reflexivity.
Qed.

Lemma getlines_from_last :
  forall (last acc : string),
    newline_free last ->
    getlines_from acc last
    = match (acc ++ last)%string with
      | EmptyString => []
      | s => [s]
      end.
Proof.
  induction last as [|c last IH]; intros acc H; simpl.
  - rewrite string_append_nil. destruct acc; reflexivity.
  - destruct H as (Hc & Hl).
    destruct (Ascii.eqb_spec c newline) as [E|_]; [contradiction|].
    rewrite (IH _ Hl), string_append_snoc. reflexivity.
Qed.

Lemma getlines_from_newline_free :
  forall input acc,
    newline_free acc -> Forall newline_free (getlines_from acc input).
Proof.
  induction input as [|c input IH]; intros acc H; simpl.
  - destruct acc; [constructor | constructor; [exact H | constructor]].
  - destruct (Ascii.eqb_spec c newline) as [E|N].
    + constructor; [exact H | apply IH; exact I].
    + apply IH. clear IH. induction acc as [|a acc IHa]; simpl.
      * split; [exact N | exact I].
      * destruct H as (Ha & Hacc). split; [exact Ha | apply IHa; exact Hacc].
Qed.

(** X20: one line of input is one message.  A text made of lines without
    newline characters, each followed by a newline, and of a last part
    [last] without newline is read back as exactly these lines, followed
    by [last] when it is not empty; so a final line needs no newline, and a
    newline at the very end adds no empty message. *)
Theorem lines_of_text :
  forall (lines : list string) (last : string),
    Forall newline_free lines ->
    newline_free last ->
    getlines (text_of_lines lines ++ last)
    = lines ++ match last with
               | EmptyString => []
               | _ => [last]
               end.
Proof.
  intros lines last Hl Hlast. unfold getlines.
  induction Hl as [|line lines Hline _ IH]; simpl.
  - rewrite (getlines_from_last last EmptyString Hlast). simpl.
    destruct last; reflexivity.
  - rewrite string_append_assoc. simpl.
    rewrite (getlines_from_line line EmptyString _ Hline). simpl.
    rewrite IH. reflexivity.
Qed.

Lemma lines_of_text_witness :
  getlines (text_of_lines ["hello"; ""]%string ++ "hello")
  = ["hello"; ""; "hello"]%string
  /\ getlines (text_of_lines ["hello"; ""]%string ++ "")
     = ["hello"; ""]%string.
Proof.
  split.
  - apply (lines_of_text ["hello"; ""]%string "hello").
    + repeat constructor; discriminate.
    + repeat split; discriminate.
  - apply (lines_of_text ["hello"; ""]%string "").
    + repeat constructor; discriminate.
    + exact I.
Defined.

(** X21: no message ever contains a newline character: every line that
    the loop of [deflate_test] reads from any input is free of them. *)
Theorem lines_are_newline_free :
  forall input : string, Forall newline_free (getlines input).
Proof.
  intro input. unfold getlines. apply getlines_from_newline_free. exact I.
Qed.

(** ** Theorems: the output buffer *)

Section BufferFacts.

Context {zlib : Zlib}.

Lemma resize_capacity :
  forall b n,
    pod_buffer.m_capacity (pod_buffer.resize b n)
    = Z.max (pod_buffer.m_capacity b) n
    /\ pod_buffer.m_cursor (pod_buffer.resize b n) = pod_buffer.m_cursor b.
Proof.
  intros b n. unfold pod_buffer.resize.
  destruct (Z.leb_spec n (pod_buffer.m_capacity b)); simpl; split;
    try reflexivity; lia.
Qed.

(** The buffer after an iteration: as large as the larger of its former
    capacity and the bound of the line, for a non-empty line; untouched for
    an empty one. *)
Lemma process_line_capacity :
  forall fl s line,
    pod_buffer.m_capacity (out_buf (final (process_line fl s line)))
    = match line with
      | EmptyString => pod_buffer.m_capacity (out_buf s)
      | _ => Z.max (pod_buffer.m_capacity (out_buf s))
                   (to_size_t (deflateBound (zlib_state s) (size line)))
      end.
Proof.
  intros fl s line. destruct line as [|c l].
  - rewrite process_line_empty. reflexivity.
  - assert (Hne : String c l <> EmptyString) by discriminate.
    rewrite (process_line_nonempty fl s _ Hne). cbv zeta.
    destruct (left_after fl s (String c l) =? 0); simpl;
      apply (proj1 (resize_capacity _ _)).
Qed.

End BufferFacts.

(** X22: the output buffer is never made smaller: whatever the lines and
    however the loop ends, the capacity of [out_buf] after the loop is at
    least its capacity before, and it is at least the bound that
    [deflateBound] gave for the first line when that line is not empty. *)
Theorem out_buf_never_shrinks :
  forall (zlib : Zlib) (fl : flush) (lines : list string) (s : session),
    pod_buffer.m_capacity (out_buf s)
    <= pod_buffer.m_capacity (out_buf (final (deflate_loop fl lines s)))
    /\ match lines with
       | String c l :: _ =>
           to_size_t (deflateBound (zlib_state s) (size (String c l)))
           <= pod_buffer.m_capacity
                (out_buf (final (deflate_loop fl lines s)))
       | _ => True
       end.
Proof.
  intros zlib fl lines s.
  assert (Hmono :
            forall ls s0 c,
              c <= pod_buffer.m_capacity (out_buf s0) ->
              c <= pod_buffer.m_capacity
                     (out_buf (final (deflate_loop fl ls s0)))).
  { intros ls s0 c H.
    apply (deflate_loop_invariant
             (fun s' => c <= pod_buffer.m_capacity (out_buf s')) fl);
      [|exact H].
    intros s1 line H1. rewrite process_line_capacity.
    destruct line; lia. }
  split; [apply Hmono; lia|].
  destruct lines as [|[|c l] rest]; try exact I.
  cbn [deflate_loop].
  pose proof (process_line_capacity fl s (String c l)) as Hc.
  destruct (process_line fl s (String c l)) as [s1|s1]; simpl in Hc.
  - apply Hmono. rewrite Hc. lia.
  - simpl. rewrite Hc. lia.
Qed.

(** X23: the accounting of a compression step.  After a step on a
    non-empty line, [out_buf.avail()] is the [avail_out] that [deflate]
    left, whatever the sizes; and when the capacity before the step and
    the bound of the line are both below 2^32, the room offered to
    [deflate] is the larger of the two and [out_buf.cursor()] is the room
    offered minus the room left, modulo 2^64: the number of bytes
    written. *)
Theorem step_accounting :
  forall (zlib : Zlib) (fl : flush) (s : session) (line : string),
    line <> EmptyString ->
    let b := out_buf (final (process_line fl s line)) in
    pod_buffer.avail b = left_after fl s line
    /\ (0 <= pod_buffer.m_capacity (out_buf s) < 2 ^ 32 ->
        0 <= deflateBound (zlib_state s) (size line) < 2 ^ 32 ->
        offered s line
        = Z.max (pod_buffer.m_capacity (out_buf s))
                (deflateBound (zlib_state s) (size line))
        /\ pod_buffer.cursor b
           = to_size_t (offered s line - left_after fl s line)).
Proof.
  intros zlib fl s line Hne b.
  assert (Hb : b = pod_buffer.adv_cursor
                     (pod_buffer.set_cursor
                        (pod_buffer.resize (out_buf s)
                           (to_size_t (deflateBound (zlib_state s) (size line))))
                        0)
                     (size_sub
                        (pod_buffer.avail
                           (pod_buffer.set_cursor
                              (pod_buffer.resize (out_buf s)
                                 (to_size_t
                                    (deflateBound (zlib_state s) (size line))))
                              0))
                        (left_after fl s line))).
  { unfold b. rewrite (process_line_nonempty fl s line Hne). cbv zeta.
    destruct (left_after fl s line =? 0); reflexivity. }
  split.
  - rewrite Hb. apply avail_after_advance. apply to_uInt_range.
  - intros Hcap Hbound.
    assert (Hoff : offered s line
                   = Z.max (pod_buffer.m_capacity (out_buf s))
                           (deflateBound (zlib_state s) (size line))).
    { unfold offered, pod_buffer.avail, pod_buffer.set_cursor, size_sub.
      simpl pod_buffer.m_cursor. simpl pod_buffer.m_capacity.
      rewrite (proj1 (resize_capacity _ _)), Z.sub_0_r.
      rewrite (to_size_t_small (deflateBound _ _)) by lia.
      rewrite to_size_t_small by lia.
      unfold to_uInt. apply Z.mod_small. lia. }
    split; [exact Hoff|].
    rewrite Hb. unfold pod_buffer.cursor, pod_buffer.adv_cursor.
    simpl pod_buffer.m_cursor.
    assert (Hav : pod_buffer.avail
                    (pod_buffer.set_cursor
                       (pod_buffer.resize (out_buf s)
                          (to_size_t (deflateBound (zlib_state s) (size line))))
                       0)
                  = offered s line).
    { unfold offered. symmetry. unfold to_uInt. apply Z.mod_small.
      unfold pod_buffer.avail, pod_buffer.set_cursor, size_sub.
      simpl pod_buffer.m_cursor. simpl pod_buffer.m_capacity.
      rewrite (proj1 (resize_capacity _ _)), Z.sub_0_r.
      rewrite (to_size_t_small (deflateBound _ _)) by lia.
      rewrite to_size_t_small by lia. lia. }
    rewrite Hav. unfold size_add, size_sub, to_size_t.
    rewrite Z.add_0_l, Z.mod_mod by lia. reflexivity.
Qed.

Lemma step_accounting_witness :
  pod_buffer.cursor
    (out_buf (final (@process_line (toy_zlib 13) Z_SYNC_FLUSH
                       (@first_session (toy_zlib 13) test_result.fresh [] Z_OK)
                       "hello")))
  = 15
  /\ pod_buffer.avail
       (out_buf (final (@process_line (toy_zlib 13) Z_SYNC_FLUSH
                          (@first_session (toy_zlib 13) test_result.fresh
                                          [] Z_OK)
                          "hello")))
     = 3.
Proof.
  assert (Hne : "hello"%string <> EmptyString) by discriminate.
  destruct (step_accounting (toy_zlib 13) Z_SYNC_FLUSH
              (@first_session (toy_zlib 13) test_result.fresh [] Z_OK)
              "hello"%string Hne) as (Hav & Hrest).
  destruct Hrest as (_ & Hcur); [simpl; lia | simpl; lia |].
  split; [exact Hcur | exact Hav].
Defined.

(** ** Theorems: the earlier variant against the later one *)

Lemma strip_push_back :
  forall lr r,
    strip_result (test_result.push_back lr r)
    = prototype.test_result.push_back (strip lr) (strip_result r).
Proof.
  intros lr r. unfold strip_result, prototype.test_result.push_back. simpl.
  rewrite map_app. reflexivity.
Qed.

Lemma strip_load_setting :
  forall arg r,
    strip_result (test_result.load_setting arg r)
    = prototype.test_result.load_arg arg (strip_result r).
Proof.
  intros arg r.
  unfold test_result.load_setting, prototype.test_result.load_arg.
  destruct (test_result.find "="%char arg); [|reflexivity].
  repeat match goal with
         | |- context [if String.eqb ?a ?b then _ else _] =>
             destruct (String.eqb a b)
         end; reflexivity.
Qed.

Lemma range_error_strip :
  forall r,
    prototype.test_result.range_error (strip_result r)
    = hd_error (range_messages r).
Proof.
  intro r.
  unfold prototype.test_result.range_error, range_messages, speed_level_ok,
    window_bits_ok, memory_level_ok.
  destruct r; simpl.
  repeat range_test;
    repeat match goal with
           | |- context [Z.leb ?a ?b] => destruct (Z.leb_spec a b); simpl
           end;
    try lia; reflexivity.
Qed.

Section Variants.

Context {zlib : Zlib}.

Lemma strip_load_args :
  forall args r,
    prototype.load_args args (strip_result r)
    = option_map strip_result (load_args args r).
Proof.
  induction args as [|arg args IH]; intro r; simpl; [reflexivity|].
  destruct (String.eqb arg "--help" || String.eqb arg "-h"); [reflexivity|].
  rewrite <- strip_load_setting. apply IH.
Qed.

(** An iteration that the later variant goes through is the iteration of
    the earlier variant. *)
Lemma process_line_simulates :
  forall fl s line s',
    process_line fl s line = Continue s' ->
    prototype.process_line fl (strip_session s) line = strip_session s'.
Proof.
  intros fl s line s' H. destruct line as [|c l].
  - rewrite process_line_empty in H. inversion H; subst.
    unfold strip_session, prototype.process_line. simpl.
    rewrite strip_push_back. reflexivity.
  - assert (Hne : String c l <> EmptyString) by discriminate.
    rewrite (process_line_nonempty fl s _ Hne) in H. cbv zeta in H.
    destruct (left_after fl s (String c l) =? 0); [discriminate|].
    inversion H; subst.
    unfold strip_session, prototype.process_line. simpl.
    rewrite strip_push_back. reflexivity.
Qed.

(** The earlier variant adds one record per line, whatever happens. *)
Lemma prototype_loop_extends :
  forall fl lines p,
    exists more,
      prototype.test_result.line_results
        (prototype.r_of (fold_left (prototype.process_line fl) lines p))
      = prototype.test_result.line_results (prototype.r_of p) ++ more
      /\ List.length more = List.length lines.
Proof.
  intros fl lines. induction lines as [|x lines IH]; intro p; simpl.
  - exists []. rewrite app_nil_r. auto.
  - destruct (IH (prototype.process_line fl p x)) as (more & Hm & Hl).
    assert (Hstep :
              exists lr,
                prototype.test_result.line_results
                  (prototype.r_of (prototype.process_line fl p x))
                = prototype.test_result.line_results (prototype.r_of p) ++ [lr]).
    { destruct x; eexists; reflexivity. }
    destruct Hstep as (lr & Hstep).
    exists (lr :: more). rewrite Hm, Hstep, <- app_assoc.
    split; [reflexivity | simpl; lia].
Qed.

Lemma loops_simulate :
  forall fl lines s,
    exists more,
      prototype.test_result.line_results
        (prototype.r_of
           (fold_left (prototype.process_line fl) lines (strip_session s)))
      = map strip (test_result.line_results
                     (r_of (final (deflate_loop fl lines s)))) ++ more
      /\ match deflate_loop fl lines s with
         | Continue s' =>
             more = []
             /\ fold_left (prototype.process_line fl) lines (strip_session s)
                = strip_session s'
         | Fatal _ => more <> []
         end.
Proof.
  intros fl lines. induction lines as [|x lines IH]; intro s.
  - exists []. simpl. rewrite app_nil_r. auto.
  - cbn [deflate_loop fold_left].
    destruct (process_line fl s x) as [s1|s1] eqn:E.
    + rewrite (process_line_simulates fl s x s1 E). apply IH.
    + destruct (prototype_loop_extends fl (x :: lines) (strip_session s))
        as (more & Hm & Hl).
      exists more. simpl in Hm. rewrite Hm. simpl.
      destruct (process_line_result fl s x) as [(lr & Hr & _) | Hr];
        rewrite E in Hr; simpl in Hr.
      * exfalso. destruct x as [|c l].
        -- rewrite process_line_empty in E. discriminate E.
        -- assert (Hne : String c l <> EmptyString) by discriminate.
           rewrite (process_line_nonempty fl s _ Hne) in E. cbv zeta in E.
           destruct (left_after fl s (String c l) =? 0); [|discriminate E].
           inversion E; subst. simpl in Hr.
           apply (f_equal test_result.line_results) in Hr. simpl in Hr.
           apply (f_equal (@List.length _)) in Hr.
           rewrite length_app in Hr. simpl in Hr. lia.
      * rewrite Hr. split; [reflexivity|].
        destruct more; [discriminate Hl | discriminate].
Qed.

End Variants.

(** X24: the earlier variant of [deflate_test] against the later one, on
    settings in range and a context that [deflateInit2] allocated,
    compared on the members of the records that are computed from sizes
    (payload size, frame overhead, compressed size, ratio; not the
    measured time).  As long as the later variant is not stopped, both add
    records with the same sizes; when the later variant stops on an
    exhausted buffer, the earlier one goes on, so that the sizes of its
    records are those of the later variant followed by at least one more.
    The earlier variant ends with one record per line. *)
Theorem prototype_records :
  forall (zlib : Zlib) (lines : list string) (r : test_result.t),
    test_result.error r = false ->
    in_ranges r ->
    fst (init_call r) = Z_OK ->
    let late := result (deflate_lines lines r) in
    let early := prototype.deflate_lines lines (strip_result r) in
    exists more,
      map early_sizes_of (prototype.test_result.line_results early)
      = map sizes_of (test_result.line_results late) ++ more
      /\ (more = [] <-> test_result.error late = false)
      /\ List.length (prototype.test_result.line_results early)
         = (List.length (test_result.line_results r) + List.length lines)%nat.
Proof.
  intros zlib lines r He Hin Hok late early.
  destruct (deflate_lines_loop lines r He Hin Hok) as (Hres & _).
  cbv zeta in Hres.
  assert (Hearly :
            early
            = prototype.r_of
                (fold_left (prototype.process_line (flush_of r)) lines
                           (strip_session
                              (first_session r (snd (init_call r)) Z_OK)))).
  { unfold early, prototype.deflate_lines, init_call in *. simpl.
    destruct (deflateInit2 _ _ _ _ _) as [ret zs]. reflexivity. }
  destruct (loops_simulate (flush_of r) lines
              (first_session r (snd (init_call r)) Z_OK))
    as (more & Hm & Hcase).
  destruct (prototype_loop_extends (flush_of r) lines
              (strip_session (first_session r (snd (init_call r)) Z_OK)))
    as (more' & Hm' & Hl').
  exists (map early_sizes_of more). unfold late. rewrite Hres, Hearly.
  split.
  { rewrite Hm, map_app, map_map. reflexivity. }
  split.
  - destruct (deflate_loop_trace (flush_of r) lines
                (first_session r (snd (init_call r)) Z_OK))
      as (k & rs & _ & _ & _ & _ & Ht).
    destruct (deflate_loop _ _ _) as [s'|s']; simpl in *.
    + destruct Hcase as (Hnil & _). destruct Ht as (_ & _ & Herr).
      rewrite Herr, He, Hnil. simpl. tauto.
    + destruct Ht as (_ & _ & Herr). rewrite Herr.
      split; [|discriminate].
      intro H. destruct more; [contradiction | discriminate H].
  - rewrite Hm'. simpl. rewrite length_app, length_map, Hl'. reflexivity.
Qed.

Lemma prototype_records_witness :
  (exists more,
      map early_sizes_of
          (prototype.test_result.line_results
             (@prototype.deflate_lines (toy_zlib 10)
                                       [""; "hello"; "later"]%string
                                       (strip_result test_result.fresh)))
      = map sizes_of
            (test_result.line_results
               (result (@deflate_lines (toy_zlib 10)
                                       [""; "hello"; "later"]%string
                                       test_result.fresh))) ++ more
      /\ List.length more = 2%nat)
  /\ List.length
       (test_result.line_results
          (result (@deflate_lines (toy_zlib 10) [""; "hello"; "later"]%string
                                  test_result.fresh))) = 1%nat.
Proof.
  assert (Hin : in_ranges test_result.fresh) by (unfold in_ranges; simpl; lia).
  destruct (prototype_records (toy_zlib 10) [""; "hello"; "later"]%string
                              test_result.fresh eq_refl Hin eq_refl)
    as (more & Hm & _ & Hlen).
  split; [|reflexivity].
  exists more. split; [exact Hm|].
  apply (f_equal (@List.length _)) in Hm.
  rewrite length_app, !length_map in Hm. rewrite Hlen in Hm.
  simpl in Hm. lia.
Defined.


Lemma strip_accumulate :
  forall r lr,
    strip_result (test_result.accumulate r lr)
    = prototype.test_result.accumulate (strip_result r) (strip lr).
Proof. intros r lr. reflexivity. Qed.

Lemma strip_fold_accumulate :
  forall l r,
    strip_result (fold_left test_result.accumulate l r)
    = fold_left prototype.test_result.accumulate (map strip l) (strip_result r).
Proof.
  induction l as [|lr l IH]; intro r; simpl; [reflexivity|].
  rewrite IH, strip_accumulate. reflexivity.
Qed.

(** X26: the two variants of [calc_stats] compute the same statistics:
    on corresponding [test_result]s the earlier one leaves what the later
    one leaves, less [total_frame_overhead_compressed]; in particular it
    adds to [total_elapsed_seconds] without resetting it just the same. *)
Theorem prototype_calc_stats :
  forall r : test_result.t,
    prototype.test_result.calc_stats (strip_result r)
    = strip_result (test_result.calc_stats r).
Proof.
  intro r.
  unfold prototype.test_result.calc_stats, test_result.calc_stats. cbv zeta.
  set (r0 := test_result.set_totals
               (Val 0) (Val 0) (Val 0) (Val 0) (Val 0%float)
               (test_result.total_elapsed_seconds r) r).
  set (p0 := prototype.test_result.set_totals
               (Val 0) (Val 0) (Val 0) (Val 0%float)
               (prototype.test_result.total_elapsed_seconds (strip_result r))
               (strip_result r)).
  assert (E0 : p0 = strip_result r0) by reflexivity.
  assert (El : prototype.test_result.line_results p0
               = map strip (test_result.line_results r0)) by reflexivity.
  rewrite El, E0, <- strip_fold_accumulate.
  generalize (fold_left test_result.accumulate (test_result.line_results r0) r0).
  intros [e srv snd ct sl wb ml l tp tfo tfoc tcs tr tel mu m32 m64].
  simpl. destruct snd; reflexivity.
Qed.

Section RecordFields.

Context {zlib : Zlib}.

Lemma process_line_assigns :
  forall fl s line,
    let r := r_of s in
    let r' := r_of (final (process_line fl s line)) in
    (exists lr,
        r' = test_result.push_back lr r /\ assigned_by_loop r lr)
    \/ r' = test_result.set_error true r.
Proof.
  intros fl s line. cbv zeta. destruct line as [|c l].
  - left. rewrite process_line_empty. simpl.
    eexists. split; [reflexivity|]. left. reflexivity.
  - assert (Hne : String c l <> EmptyString) by discriminate.
    rewrite (process_line_nonempty fl s _ Hne). cbv zeta.
    destruct (left_after fl s (String c l) =? 0).
    + right. reflexivity.
    + left. simpl. eexists. split; [reflexivity|]. right. simpl.
      split; [unfold size; simpl String.length; lia|].
      split; [reflexivity|]. split; [eexists; reflexivity | reflexivity].
Qed.

Lemma assigned_by_loop_server :
  forall r1 r2 lr,
    test_result.is_server r1 = test_result.is_server r2 ->
    assigned_by_loop r1 lr -> assigned_by_loop r2 lr.
Proof.
  intros r1 r2 lr H. unfold assigned_by_loop, empty_record. rewrite H. tauto.
Qed.

End RecordFields.

(** X27: every record that a run adds is either the record of an empty
    line (payload size 0, compressed size 2, ratio 2.0, time and
    compressed overhead unassigned) or a record with a payload size other
    than 0 whose ratio is [double(compressed_size) / double(payload_size)],
    whose time is assigned and whose compressed frame overhead is the
    overhead of its compressed size. *)
Theorem records_assigned_by_loop :
  forall (zlib : Zlib) (lines : list string) (r : test_result.t),
    Forall (assigned_by_loop r) (appended r (deflate_lines lines r)).
Proof.
  intros zlib lines r.
  destruct (deflate_lines_cases lines r)
    as [(Hrun & _) | [(_ & _ & _ & Hres) | (_ & _ & _ & Hres & _)]].
  - rewrite (appended_nil r _); [constructor | rewrite Hrun; reflexivity].
  - rewrite (appended_nil r _); [constructor | rewrite Hres; reflexivity].
  - assert (Hinv :
              test_result.is_server
                (r_of (final (deflate_loop (flush_of r) lines
                                (first_session r (snd (init_call r)) Z_OK))))
              = test_result.is_server r
              /\ exists recs,
                  test_result.line_results
                    (r_of (final (deflate_loop (flush_of r) lines
                                    (first_session r (snd (init_call r)) Z_OK))))
                  = test_result.line_results r ++ recs
                  /\ Forall (assigned_by_loop r) recs).
    { apply (deflate_loop_invariant
               (fun s =>
                  test_result.is_server (r_of s) = test_result.is_server r
                  /\ exists recs,
                      test_result.line_results (r_of s)
                      = test_result.line_results r ++ recs
                      /\ Forall (assigned_by_loop r) recs)).
      - intros s line (Hsrv & recs & Hrecs & Hall).
        destruct (process_line_assigns (flush_of r) s line)
          as [(lr & Hr & Hlr) | Hr]; rewrite Hr.
        + split; [exact Hsrv|]. exists (recs ++ [lr]). split.
          * simpl. rewrite Hrecs, app_assoc. reflexivity.
          * apply Forall_app. split; [exact Hall|].
            constructor; [|constructor].
            exact (assigned_by_loop_server (r_of s) r lr Hsrv Hlr).
        + split; [exact Hsrv|]. exists recs. split; [exact Hrecs | exact Hall].
      - split; [reflexivity|]. exists []. rewrite app_nil_r.
        split; [reflexivity | constructor]. }
    destruct Hinv as (_ & recs & Hrecs & Hall).
    rewrite (appended_app r _ recs); [exact Hall | rewrite Hres; exact Hrecs].
Qed.

(** ** Theorems: what the order of the lines does change *)

Lemma flat_full_flush_resets : @full_flush_resets flat_zlib [].
Proof. intros line ain aout _. reflexivity. Qed.

Lemma flat_output_independent_of_room :
  @output_independent_of_room flat_zlib [].
Proof.
  intros line ain a1 a2 H1 H2. cbv zeta. simpl.
  assert (Hleft :
            forall a, 0 <= a < 2 ^ 32 ->
                      to_uInt (a - Z.min 20 a) <> 0 ->
                      a - to_uInt (a - Z.min 20 a) = 20).
  { intros a Ha Hn.
    destruct (Z.min_spec 20 a) as [(Hlt & Hm) | (Hge & Hm)]; rewrite Hm in *.
    - unfold to_uInt. rewrite Z.mod_small by lia. ring.
    - exfalso. apply Hn. rewrite Z.sub_diag. reflexivity. }
  intros L1 L2. rewrite (Hleft a1 H1 L1), (Hleft a2 H2 L2). reflexivity.
Qed.

